(** * libTAS: thread interception layer and frame boundary

    A shallow embedding of two translation units of libTAS,

    - the pthread wrappers ([pthread_create], [pthread_exit], [pthread_join],
      [pthread_detach], [pthread_tryjoin_np], [pthread_timedjoin_np] and the
      trampoline [pthread_start]), and
    - [src/library/frame.cpp] ([computeFPS], [skipDraw], [frameBoundary],
      [screen_redraw], [receive_messages]),

    followed by the properties of them that the specification states.

    Conventions.  C integers are [Z] with the wrap-around of their width
    written out.  A [float] is a [spec_float] of IEEE-754 binary32 (precision
    24, [emax] 128) and its memory image is [bits_of_float].  Globals and
    function-local statics are fields of an explicit world that every
    function takes and returns.  Collaborators whose sources are not part of
    the two units (ThreadManager, ThreadSync, the real libpthread, the
    deterministic timer, the checkpoint engine, header constants) are
    operations of type classes, so every theorem holds for whatever
    implementation they have. *)

From Stdlib Require Import ZArith List Bool Lia String QArith Qround.
From Stdlib Require Import Floats.SpecFloat.
Import ListNotations.
Open Scope Z_scope.

(** ** Platform constants and plain data *)

(** [<errno.h>], Linux. *)
Definition ESRCH : Z := 3.
Definition EBUSY : Z := 16.
Definition EINVAL : Z := 22.
Definition ETIMEDOUT : Z := 110.

(** [<pthread.h>], glibc. *)
Definition PTHREAD_CREATE_JOINABLE : Z := 0.
Definition PTHREAD_CREATE_DETACHED : Z := 1.

(** [struct timespec]. *)
Record timespec := { tv_sec : Z; tv_nsec : Z }.

(** A [void *] value; [nullptr] is 0. *)
Definition ptr := Z.

(** A local that may be read before it was assigned: [None] is the
    indeterminate value. *)
Definition maybe_uninit (A : Type) := option A.

(** The members of [SharedConfig] (the configuration struct replicated
    between the controller and the game) that the two units read.
    [shared/SharedConfig.h] is not among the sources: the field names are
    those of the uses, the bit masks are operations of [FrameDeps] below. *)
Record SharedConfig := {
  running : bool;
  fastforward : bool;
  fastforward_mode : Z;
  av_dumping : bool;
  backtrack_savestate : bool;
  save_screenpixels : bool;
  osd : Z;
  osd_encode : bool;
  debug_state : Z;
  initial_framecount : Z;
  recycle_threads : bool
}.

(** ** The pthread wrappers *)

Module Pthread.

Definition pthread_t := Z.

(** A [ThreadInfo*]. *)
Definition ThreadPtr := nat.

(** Modelled from the spec: [checkpoint/ThreadInfo.h] is not among the
    sources.  The wrappers name [ST_RUNNING] and [ST_ZOMBIE]; the other
    enumerators are the lifecycle states the specification lists. *)
Inductive ThreadState :=
| ST_UNINITIALIZED
| ST_RUNNING
| ST_PARKED
| ST_ZOMBIE
| ST_QUIT.

Definition ThreadState_eqb (a b : ThreadState) : bool :=
  match a, b with
  | ST_UNINITIALIZED, ST_UNINITIALIZED
  | ST_RUNNING, ST_RUNNING
  | ST_PARKED, ST_PARKED
  | ST_ZOMBIE, ST_ZOMBIE
  | ST_QUIT, ST_QUIT => true
  | _, _ => false
  end.

(** The members of [ThreadInfo] the wrappers touch. *)
Record ThreadInfo := {
  state : ThreadState;
  pthread_id : pthread_t;
  tid : Z;
  start : ptr;
  arg : ptr;
  routine_id : Z;
  detached : bool;
  retval : ptr;
  quit : bool
}.

(** How a start routine ends: by returning, or inside a call to
    [pthread_exit]. *)
Inductive Behaviour :=
| Returns (v : ptr)
| CallsPthreadExit (v : ptr).

(** [ThreadManager]: the registry of logical threads.  [thread_at] and
    [store_detached] are the reads and the one write the wrappers make
    through a [ThreadInfo*]; the functions that use the thread-local
    [current_thread] take the calling thread as [self]. *)
Class ThreadManager (Registry : Type) := {
  thread_at : Registry -> ThreadPtr -> ThreadInfo;
  store_detached : ThreadPtr -> bool -> Registry -> Registry;
  getThread : pthread_t -> Registry -> option ThreadPtr;
  getNewThread : Registry -> ThreadPtr * Registry;
  initThreadFromParent :
    ThreadPtr -> ptr -> ptr -> ptr -> Registry -> bool * Registry;
  initThreadFromChild : ThreadPtr -> Registry -> Registry;
  update : ThreadPtr -> Registry -> Registry;
  setCurrentThread : ThreadPtr -> Registry -> Registry;
  threadExit : ThreadPtr -> maybe_uninit ptr -> Registry -> Registry;
  threadIsDead : ThreadPtr -> Registry -> Registry;
  threadDetach : pthread_t -> Registry -> Registry
}.

(** [ThreadSync]: the wrapper execution lock and the count of threads that
    have not finished registering. *)
Class ThreadSync (Sync : Type) := {
  wrapperExecutionLockLock : Sync -> Sync;
  wrapperExecutionLockUnlock : Sync -> Sync;
  incrementUninitializedThreadCount : Sync -> Sync;
  decrementUninitializedThreadCount : Sync -> Sync;
  waitForThreadsToFinishInitialization : Sync -> Sync
}.

(** The real libpthread ([orig::]) and what happens while the caller is
    blocked in a native call: the result of a call and the registry as the
    other threads left it.  [run_routine] is the program's start routine. *)
Class Native (Registry : Type) := {
  orig_pthread_create : ThreadPtr -> Registry -> Z * pthread_t * Registry;
  orig_pthread_join : pthread_t -> Registry -> Z * ptr * Registry;
  orig_pthread_detach : pthread_t -> Registry -> Z * Registry;
  orig_pthread_tryjoin_np : pthread_t -> Registry -> Z * ptr * Registry;
  orig_pthread_timedjoin_np :
    pthread_t -> timespec -> Registry -> Z * ptr * Registry;
  native_nanosleep : timespec -> Registry -> Registry;
  cv_wait : ThreadPtr -> Registry -> Registry;
  run_routine : ptr -> ptr -> Registry -> Behaviour * Registry
}.

(** What a wrapper does outside the registry. *)
Inductive Event :=
| EvDebuglog (msg : string)
| EvOrigPthreadCreate (entry : string) (thread : ThreadPtr) (ret : Z)
| EvNotifyAll (thread : ThreadPtr)
| EvClearPthreadKeys
| EvCallTlsDtors
| EvLibcThreadFreeres
| EvDlAllocateTlsInit (pt : pthread_t)
| EvOrigPthreadExit (v : ptr).

Section Wrappers.

Context {Registry Sync : Type}.
Context {TM : ThreadManager Registry}.
Context {TS : ThreadSync Sync}.
Context {NA : Native Registry}.

Record World := {
  registry : Registry;
  sync : Sync;
  shared_config : SharedConfig;
  isNative : bool;
  trace : list Event
}.

Definition with_registry (r : Registry) (w : World) : World :=
  {| registry := r; sync := sync w; shared_config := shared_config w;
     isNative := isNative w; trace := trace w |}.

Definition on_registry (f : Registry -> Registry) (w : World) : World :=
  with_registry (f (registry w)) w.

Definition on_sync (f : Sync -> Sync) (w : World) : World :=
  {| registry := registry w; sync := f (sync w);
     shared_config := shared_config w; isNative := isNative w;
     trace := trace w |}.

Definition emit (e : Event) (w : World) : World :=
  {| registry := registry w; sync := sync w;
     shared_config := shared_config w; isNative := isNative w;
     trace := trace w ++ [e] |}.

Definition debuglog (msg : string) : World -> World := emit (EvDebuglog msg).

(** An out-parameter [void **]: [true] when the pointer is not null.  A
    wrapper returns what it stored through it, if anything. *)
Definition out_ptr := bool.

Definition store_through (p : out_ptr) (v : ptr) : option ptr :=
  if p then Some v else None.

(** *** [pthread_start], the trampoline *)

(** [pthread_exit]: it never returns to its caller. *)
Inductive ExitResult :=
| ThrowsThreadExitException (w : World)
| OsThreadExits (w : World).

Definition pthread_exit (self : ThreadPtr) (v : ptr) (w : World)
  : ExitResult :=
  let w := debuglog "Thread has exited." w in
  if recycle_threads (shared_config w) then
    ThrowsThreadExitException w
  else
    let w := on_registry (threadExit self (Some v)) w in
    OsThreadExits (emit (EvOrigPthreadExit v) w).

(** One turn of the trampoline's loop. *)
Inductive TurnResult :=
| TurnDone (w : World)
| TurnThreadGone (w : World).

Definition post_routine (thread : ThreadPtr) (ret : maybe_uninit ptr)
  (w : World) : World :=
  let w := debuglog "End of thread code" w in
  let w := emit EvClearPthreadKeys w in
  let w := emit EvCallTlsDtors w in
  let w := emit EvLibcThreadFreeres w in
  let w :=
    emit (EvDlAllocateTlsInit (pthread_id (thread_at (registry w) thread))) w
  in
  let w := on_registry (setCurrentThread thread) w in
  on_registry (threadExit thread ret) w.

Definition pthread_start_turn (thread : ThreadPtr) (w : World) : TurnResult :=
  if ThreadState_eqb (state (thread_at (registry w) thread)) ST_RUNNING then
    let w := on_registry (update thread) w in
    let w := on_sync decrementUninitializedThreadCount w in
    let w := debuglog "Beginning of thread code " w in
    let t := thread_at (registry w) thread in
    let '(b, r) := run_routine (start t) (arg t) (registry w) in
    let w := with_registry r w in
    match b with
    | Returns v => TurnDone (post_routine thread (Some v) w)
    | CallsPthreadExit v =>
        match pthread_exit thread v w with
        | ThrowsThreadExitException w => TurnDone (post_routine thread None w)
        | OsThreadExits w => TurnThreadGone w
        end
    end
  else
    TurnDone (on_registry (cv_wait thread) w).

(** The [do ... while] of the trampoline; [fuel] bounds the number of
    turns. *)
Inductive StartResult :=
| StartReturned (w : World)
| StartThreadGone (w : World)
| StartStillLooping (w : World).

Fixpoint pthread_start_loop (fuel : nat) (thread : ThreadPtr) (w : World)
  : StartResult :=
  match fuel with
  | O => StartStillLooping w
  | S fuel =>
      match pthread_start_turn thread w with
      | TurnThreadGone w => StartThreadGone w
      | TurnDone w =>
          if negb (quit (thread_at (registry w) thread))
             && recycle_threads (shared_config w)
          then pthread_start_loop fuel thread w
          else StartReturned w
      end
  end.

Definition pthread_start (fuel : nat) (thread : ThreadPtr) (w : World)
  : StartResult :=
  pthread_start_loop fuel thread (on_registry (initThreadFromChild thread) w).

(** *** [pthread_create] *)

(** [attr] is the detach state held by the attribute object, [None] for a
    null [attr].  The result is the return code, the identity stored in
    [*tid_p] and the new world. *)
Definition pthread_create (attr : option Z) (start_routine arg : ptr)
  (return_address : ptr) (w : World) : Z * option pthread_t * World :=
  let w := debuglog "Thread is created with routine " w in
  let w := on_sync wrapperExecutionLockLock w in
  let w := on_sync incrementUninitializedThreadCount w in
  let '(thread, r) := getNewThread (registry w) in
  let '(isRecycled, r) :=
    initThreadFromParent thread start_routine arg return_address r in
  let w := with_registry r w in
  let detachstate :=
    match attr with
    | Some d => d
    | None => PTHREAD_CREATE_JOINABLE
    end in
  let w :=
    match attr with
    | Some _ =>
        debuglog "Default state is " (debuglog "Detached state is " w)
    | None => w
    end in
  let w :=
    on_registry
      (store_detached thread (detachstate =? PTHREAD_CREATE_DETACHED)) w in
  if isRecycled then
    let w := debuglog "Recycling thread " w in
    let tid_p := pthread_id (thread_at (registry w) thread) in
    let w := emit (EvNotifyAll thread) w in
    (0, Some tid_p, on_sync wrapperExecutionLockUnlock w)
  else
    let '(ret, new_id, r) := orig_pthread_create thread (registry w) in
    let w :=
      emit (EvOrigPthreadCreate "pthread_start" thread ret)
        (with_registry r w) in
    let tid_p := if ret =? 0 then Some new_id else None in
    let w :=
      if negb (ret =? 0) then
        on_registry (threadIsDead thread)
          (on_sync decrementUninitializedThreadCount w)
      else w in
    (ret, tid_p, on_sync wrapperExecutionLockUnlock w).

(** *** [pthread_join] and [pthread_detach] *)

Definition mssleep : timespec := {| tv_sec := 0; tv_nsec := 1000 * 1000 |}.

(** [while (thread->state != ST_ZOMBIE) nanosleep(1 ms)], at most [fuel]
    sleeps; [None] when the thread is still not a zombie after them. *)
Fixpoint wait_for_zombie (fuel : nat) (thread : ThreadPtr) (r : Registry)
  : option Registry :=
  if ThreadState_eqb (state (thread_at r thread)) ST_ZOMBIE then Some r
  else
    match fuel with
    | O => None
    | S fuel => wait_for_zombie fuel thread (native_nanosleep mssleep r)
    end.

Definition pthread_join (fuel : nat) (pthread_id : pthread_t)
  (thread_return : out_ptr) (w : World) : option (Z * option ptr * World) :=
  if isNative w then
    let '(ret, v, r) := orig_pthread_join pthread_id (registry w) in
    Some (ret, if ret =? 0 then store_through thread_return v else None,
          with_registry r w)
  else
    let w := on_sync wrapperExecutionLockLock w in
    let w := on_sync waitForThreadsToFinishInitialization w in
    let w := debuglog "Joining thread " w in
    match getThread pthread_id (registry w) with
    | None => Some (ESRCH, None, on_sync wrapperExecutionLockUnlock w)
    | Some thread =>
        if detached (thread_at (registry w) thread) then
          Some (EINVAL, None, on_sync wrapperExecutionLockUnlock w)
        else
          let joined :=
            if recycle_threads (shared_config w) then
              match wait_for_zombie fuel thread (registry w) with
              | Some r => Some (0, None, with_registry r w)
              | None => None
              end
            else
              let '(ret, v, r) := orig_pthread_join pthread_id (registry w) in
              Some (ret,
                    if ret =? 0 then store_through thread_return v else None,
                    with_registry r w) in
          match joined with
          | None => None
          | Some (ret, out, w) =>
              let w := on_registry (threadDetach pthread_id) w in
              Some (ret, out, on_sync wrapperExecutionLockUnlock w)
          end
    end.

Definition pthread_detach (pthread_id : pthread_t) (w : World) : Z * World :=
  if isNative w then
    let '(ret, r) := orig_pthread_detach pthread_id (registry w) in
    (ret, with_registry r w)
  else
    let w := on_sync wrapperExecutionLockLock w in
    let w := on_sync waitForThreadsToFinishInitialization w in
    let w := debuglog "Detaching thread " w in
    match getThread pthread_id (registry w) with
    | None => (ESRCH, on_sync wrapperExecutionLockUnlock w)
    | Some thread =>
        if detached (thread_at (registry w) thread) then
          (EINVAL, on_sync wrapperExecutionLockUnlock w)
        else
          let '(ret, w) :=
            if negb (recycle_threads (shared_config w)) then
              let '(ret, r) := orig_pthread_detach pthread_id (registry w) in
              (ret, with_registry r w)
            else (0, w) in
          let w := on_registry (threadDetach pthread_id) w in
          (ret, on_sync wrapperExecutionLockUnlock w)
    end.

(** *** [pthread_tryjoin_np] and [pthread_timedjoin_np] *)

Definition pthread_tryjoin_np (pthread_id : pthread_t) (retval : out_ptr)
  (w : World) : Z * option ptr * World :=
  if isNative w then
    let '(ret, v, r) := orig_pthread_tryjoin_np pthread_id (registry w) in
    (ret, if ret =? 0 then store_through retval v else None,
     with_registry r w)
  else
    let w := on_sync wrapperExecutionLockLock w in
    let w := on_sync waitForThreadsToFinishInitialization w in
    let w := debuglog "Try to join thread " w in
    match getThread pthread_id (registry w) with
    | None => (ESRCH, None, on_sync wrapperExecutionLockUnlock w)
    | Some thread =>
        if detached (thread_at (registry w) thread) then
          (EINVAL, None, on_sync wrapperExecutionLockUnlock w)
        else
          let '(ret, out, w) :=
            if recycle_threads (shared_config w) then
              let t := thread_at (registry w) thread in
              if ThreadState_eqb (state t) ST_ZOMBIE then
                (0, store_through retval (Pthread.retval t),
                 on_registry (threadDetach pthread_id) w)
              else (EBUSY, None, w)
            else
              let '(ret, v, r) :=
                orig_pthread_tryjoin_np pthread_id (registry w) in
              let w := with_registry r w in
              if ret =? 0 then
                (ret, store_through retval v,
                 on_registry (threadDetach pthread_id) w)
              else (ret, None, w) in
          let w :=
            if ret =? 0 then debuglog "Joining thread successfully." w
            else debuglog "Thread has not yet terminated." w in
          (EBUSY, out, on_sync wrapperExecutionLockUnlock w)
    end.

Definition pthread_timedjoin_np (pthread_id : pthread_t) (retval : out_ptr)
  (abstime : timespec) (w : World) : Z * option ptr * World :=
  if isNative w then
    let '(ret, v, r) :=
      orig_pthread_timedjoin_np pthread_id abstime (registry w) in
    (ret, if ret =? 0 then store_through retval v else None,
     with_registry r w)
  else
    let w := on_sync wrapperExecutionLockLock w in
    let w := on_sync waitForThreadsToFinishInitialization w in
    let w := debuglog "Try to join thread in " w in
    if (tv_sec abstime <? 0) || (tv_nsec abstime >=? 1000000000) then
      (EINVAL, None, on_sync wrapperExecutionLockUnlock w)
    else
      match getThread pthread_id (registry w) with
      | None => (ESRCH, None, on_sync wrapperExecutionLockUnlock w)
      | Some thread =>
          if detached (thread_at (registry w) thread) then
            (EINVAL, None, on_sync wrapperExecutionLockUnlock w)
          else
            let '(ret, out, w) :=
              if recycle_threads (shared_config w) then
                let w := on_registry (native_nanosleep abstime) w in
                let t := thread_at (registry w) thread in
                if ThreadState_eqb (state t) ST_ZOMBIE then
                  (0, store_through retval (Pthread.retval t),
                   on_registry (threadDetach pthread_id) w)
                else (ETIMEDOUT, None, w)
              else
                let '(ret, v, r) :=
                  orig_pthread_timedjoin_np pthread_id abstime (registry w) in
                let w := with_registry r w in
                if ret =? 0 then
                  (ret, store_through retval v,
                   on_registry (threadDetach pthread_id) w)
                else (ret, None, w) in
            let w :=
              if ret =? 0 then debuglog "Joining thread successfully." w
              else debuglog "Call timed out before thread terminated." w in
            (ETIMEDOUT, out, on_sync wrapperExecutionLockUnlock w)
      end.

(** *** Worlds and logs that the properties speak of *)

(** The world in which a wrapper looks the thread up: the lock is taken,
    the registrations in flight are over and the call is logged. *)
Definition entered (msg : string) (w : World) : World :=
  debuglog msg
    (on_sync waitForThreadsToFinishInitialization
       (on_sync wrapperExecutionLockLock w)).

(** The world [pthread_timedjoin_np] returns when the time is up and the
    thread is no zombie: it has slept, logged and released the lock. *)
Definition timed_out (abstime : timespec) (w : World) : World :=
  on_sync wrapperExecutionLockUnlock
    (debuglog "Call timed out before thread terminated."
       (on_registry (native_nanosleep abstime)
          (entered "Try to join thread in " w))).

(** The registry after [n] native sleeps of one millisecond in a row. *)
Fixpoint after_sleeps (n : nat) (r : Registry) : Registry :=
  match n with
  | O => r
  | S n =>
      after_sleeps n
        (native_nanosleep {| tv_sec := 0; tv_nsec := 1000000 |} r)
  end.

(** What [pthread_create] logs about [attr]. *)
Definition attr_log (attr : option Z) : list Event :=
  match attr with
  | Some _ => [EvDebuglog "Detached state is "; EvDebuglog "Default state is "]
  | None => []
  end.

(** Whether [attr] asks for a detached thread. *)
Definition wants_detached (attr : option Z) : bool :=
  match attr with
  | Some d => d =? PTHREAD_CREATE_DETACHED
  | None => false
  end.

(** What the trampoline does outside the registry once the routine is
    over. *)
Definition cleanup_events (pt : pthread_t) : list Event :=
  [EvDebuglog "End of thread code"; EvClearPthreadKeys; EvCallTlsDtors;
   EvLibcThreadFreeres; EvDlAllocateTlsInit pt].

End Wrappers.

End Pthread.

(** ** Single-precision floats *)

(** A C [float]: IEEE-754 binary32. *)
Definition float := spec_float.
Definition prec32 : Z := 24.
Definition emax32 : Z := 128.

(** Conversion of an integer to [float], rounding to nearest even. *)
Definition float_of_Z (n : Z) : float :=
  binary_normalize prec32 emax32 n 0 false.

Definition float_add : float -> float -> float := SFadd prec32 emax32.
Definition float_sub : float -> float -> float := SFsub prec32 emax32.
Definition float_mul : float -> float -> float := SFmul prec32 emax32.
Definition float_div : float -> float -> float := SFdiv prec32 emax32.

(** [a > b]; false when either is a NaN. *)
Definition float_gt (a b : float) : bool := SFltb b a.

(** The object representation of a [float] read as a 32-bit unsigned
    integer: sign, 8 bits of biased exponent, 23 bits of fraction.  The
    payload of a NaN is not part of [spec_float]; the quiet NaN stands for
    all of them. *)
Definition bits_of_float (f : float) : Z :=
  match f with
  | S754_zero s => if s then 2147483648 else 0
  | S754_infinity s => (if s then 2147483648 else 0) + 255 * 8388608
  | S754_nan => 255 * 8388608 + 4194304
  | S754_finite s m e =>
      (if s then 2147483648 else 0)
      + (if 8388608 <=? Z.pos m
         then (e + 150) * 8388608 + (Z.pos m - 8388608)
         else Z.pos m)
  end.

(** [static_cast<int>(f)]: truncation toward zero; [None] where the
    conversion is undefined (NaN, infinities, values outside [int]). *)
Definition int_of_float (f : float) : option Z :=
  match f with
  | S754_zero _ => Some 0
  | S754_finite s m e =>
      let mag := if 0 <=? e then Z.pos m * 2 ^ e else Z.pos m / 2 ^ (- e) in
      let v := if s then - mag else mag in
      if (-2147483648 <=? v) && (v <=? 2147483647) then Some v else None
  | _ => None
  end.

(** The rational value of a finite [float]; 0 for the others. *)
Definition Q_of_float (f : float) : Q :=
  match f with
  | S754_finite s m e =>
      let mag :=
        if 0 <=? e then inject_Z (Z.pos m * 2 ^ e)
        else Qmake (Z.pos m) (Z.to_pos (2 ^ (- e))) in
      if s then Qopp mag else mag
  | _ => 0%Q
  end.

(** The frequency as the specification words it: the frames per second
    divided by 8, rounded up to the next power of two, never below 4. *)
Definition spec_skip_frequency (fps : Q) : Z :=
  Z.max 4 (2 ^ Z.log2_up (Qceiling (fps / 8))).

(** [unsigned int] has 32 bits and [unsigned long] 64 (x86-64 Linux). *)
Definition UINT_MODULUS : Z := 4294967296.
Definition ULONG_MODULUS : Z := 18446744073709551616.
Definition wrap_uint (n : Z) : Z := n mod UINT_MODULUS.
Definition wrap_ulong (n : Z) : Z := n mod ULONG_MODULUS.

(** ** The frame boundary *)

Module Frame.

(** The enumerators of [shared/messages.h] that [frame.cpp] names:
    [MSGN_*] come from the controller, [MSGB_*] go to it. *)
Inductive Message :=
| MSGN_USERQUIT
| MSGN_CONFIG
| MSGN_DUMP_FILE
| MSGN_ALL_INPUTS
| MSGN_EXPOSE
| MSGN_PREVIEW_INPUTS
| MSGN_SAVESTATE_PATH
| MSGN_SAVESTATE_INDEX
| MSGN_SAVESTATE
| MSGN_LOADSTATE
| MSGN_STOP_ENCODE
| MSGN_OSD_MSG
| MSGN_END_FRAMEBOUNDARY
| MSGN_RAMWATCH
| MSGB_ALERT_MSG
| MSGB_FRAMECOUNT_TIME
| MSGB_GAMEINFO
| MSGB_FPS
| MSGB_DO_BACKTRACK_SAVESTATE
| MSGB_START_FRAMEBOUNDARY
| MSGB_LOADING_SUCCEEDED.

Definition all_messages : list Message :=
  [ MSGN_USERQUIT; MSGN_CONFIG; MSGN_DUMP_FILE; MSGN_ALL_INPUTS; MSGN_EXPOSE;
    MSGN_PREVIEW_INPUTS; MSGN_SAVESTATE_PATH; MSGN_SAVESTATE_INDEX;
    MSGN_SAVESTATE; MSGN_LOADSTATE; MSGN_STOP_ENCODE; MSGN_OSD_MSG;
    MSGN_END_FRAMEBOUNDARY; MSGN_RAMWATCH; MSGB_ALERT_MSG;
    MSGB_FRAMECOUNT_TIME; MSGB_GAMEINFO; MSGB_FPS;
    MSGB_DO_BACKTRACK_SAVESTATE; MSGB_START_FRAMEBOUNDARY;
    MSGB_LOADING_SUCCEEDED ].

(** The members of [game_info] that [frame.cpp] reads. *)
Record GameInfo := { tosend : bool; video : Z }.

(** What [frame.cpp] takes from headers and collaborators that are not
    among the sources: the numeric values of the message enumerators (an
    enumeration, hence distinct), bit masks, the build option
    [LIBTAS_ENABLE_HUD], the deterministic timer, [TimeHolder] subtraction,
    the native monotonic clock (its n-th reading) and the checkpoint engine.
    [restore] is [None] when the restore succeeds, since control then never
    comes back to the caller. *)
Class FrameDeps (Timer Engine AllInputs : Type) := {
  code : Message -> Z;
  code_inj : forall a b, code a = code b -> a = b;
  FF_RENDERING : Z;
  OSD_FRAMECOUNT : Z;
  OSD_INPUTS : Z;
  OSD_MESSAGES : Z;
  OSD_RAMWATCHES : Z;
  DEBUG_NATIVE_EVENTS : Z;
  GameInfo_SDL1 : Z;
  GameInfo_SDL2 : Z;
  LIBTAS_ENABLE_HUD : bool;
  enterFrameBoundary : Timer -> Timer;
  exitFrameBoundary : Timer -> Timer;
  getTicks : Timer -> timespec * Timer;
  TimeHolder_sub : timespec -> timespec -> timespec;
  clock_monotonic : nat -> timespec;
  checkpoint : Engine -> Engine;
  restoreInProgress : Engine -> bool;
  restore : Engine -> option Engine;
  emptyInputs : AllInputs
}.

Section FrameUnit.

Context {Timer Engine AllInputs : Type}.
Context {FD : FrameDeps Timer Engine AllInputs}.

(** One unit of traffic on the control channel: a message tag or a
    payload. *)
Inductive Item :=
| IMsg (c : Z)
| IString (s : string)
| IInt (n : Z)
| IULong (n : Z)
| ITimespec (t : timespec)
| IFloat (f : float)
| IConfig (c : SharedConfig)
| IInputs (a : AllInputs)
| IGameInfo (g : GameInfo).

(** Calls into the rest of the library and the system. *)
Inductive Event :=
| EvDebuglog (msg : string)
| EvAssertFailed (what : string)
| EvSetMainThread
| EvDraw
| EvWindowTitleUpdate (fps lfps : float)
| EvStorePixels
| EvSetPixels
| EvHudResetWatches
| EvHudInsertWatch (s : string)
| EvHudInsertMessage (s : string)
| EvHudResetOffsets
| EvHudRenderFrame (n : Z)
| EvHudRenderInputs (a : AllInputs)
| EvHudRenderPreviewInputs (a : AllInputs)
| EvHudRenderMessages
| EvHudRenderWatches
| EvEncoderNew
| EvEncodeOneFrame (drawFB : bool)
| EvEncoderDelete
| EvSetDumpfile (s : string)
| EvSetFfmpegOptions (s : string)
| EvQuitSDL1
| EvQuitSDL2
| EvQuitXlib
| EvSetSavestatePath (s : string)
| EvSetSavestateIndex (n : Z)
| EvSetCurrentToParent
| EvPushNativeSDLEvents
| EvPushNativeXlibEvents
| EvUpdateGameInputs
| EvGenerateKeyUpEvents
| EvGenerateKeyDownEvents
| EvGenerateControllerAdded
| EvGenerateControllerEvents
| EvGenerateMouseMotionEvents
| EvGenerateMouseButtonEvents
| EvSyncEvents.

(** The statics of [computeFPS]. *)
Record FPSStatics := {
  can_output : bool;
  fps_refresh_freq : Z;
  lastFrames : list Z;
  lastTimes : list timespec;
  lastTicks : list timespec;
  refresh_counter : Z;
  compute_counter : Z
}.

(** The variables [frame.cpp] defines: [framecount], its file statics and
    the function statics of [computeFPS], [skipDraw] and [frameBoundary]. *)
Record Statics := {
  framecount : Z;
  nondraw_framecount : Z;
  didASavestate : bool;
  fps_statics : FPSStatics;
  skip_counter : Z;
  fps : float;
  lfps : float
}.

(** The globals of other units that [frame.cpp] reads and writes. *)
Record Globals := {
  shared_config : SharedConfig;
  game_info : GameInfo;
  skipping_draw : bool;
  saveBacktrack : bool;
  is_exiting : bool;
  ai : AllInputs;
  avencoder : bool;
  alerts : list string
}.

(** What lies outside the process image: the timer, the checkpoint engine,
    the number of readings taken from the native clock, both directions of
    the control channel and the calls made so far. *)
Record Outside := {
  timer : Timer;
  engine : Engine;
  clock_reads : nat;
  chan_in : list Item;
  chan_out : list Item;
  log : list Event
}.

Record World := { statics : Statics; globals : Globals; outside : Outside }.

(** *** Field updates *)

Definition on_statics (f : Statics -> Statics) (w : World) : World :=
  {| statics := f (statics w); globals := globals w; outside := outside w |}.

Definition on_globals (f : Globals -> Globals) (w : World) : World :=
  {| statics := statics w; globals := f (globals w); outside := outside w |}.

Definition on_outside (f : Outside -> Outside) (w : World) : World :=
  {| statics := statics w; globals := globals w; outside := f (outside w) |}.

Definition set_framecount (v : Z) (s : Statics) : Statics :=
  {| framecount := v; nondraw_framecount := nondraw_framecount s;
     didASavestate := didASavestate s; fps_statics := fps_statics s;
     skip_counter := skip_counter s; fps := fps s; lfps := lfps s |}.

Definition set_nondraw_framecount (v : Z) (s : Statics) : Statics :=
  {| framecount := framecount s; nondraw_framecount := v;
     didASavestate := didASavestate s; fps_statics := fps_statics s;
     skip_counter := skip_counter s; fps := fps s; lfps := lfps s |}.

Definition set_didASavestate (v : bool) (s : Statics) : Statics :=
  {| framecount := framecount s; nondraw_framecount := nondraw_framecount s;
     didASavestate := v; fps_statics := fps_statics s;
     skip_counter := skip_counter s; fps := fps s; lfps := lfps s |}.

Definition set_fps_statics (v : FPSStatics) (s : Statics) : Statics :=
  {| framecount := framecount s; nondraw_framecount := nondraw_framecount s;
     didASavestate := didASavestate s; fps_statics := v;
     skip_counter := skip_counter s; fps := fps s; lfps := lfps s |}.

Definition set_skip_counter (v : Z) (s : Statics) : Statics :=
  {| framecount := framecount s; nondraw_framecount := nondraw_framecount s;
     didASavestate := didASavestate s; fps_statics := fps_statics s;
     skip_counter := v; fps := fps s; lfps := lfps s |}.

Definition set_fps_lfps (v l : float) (s : Statics) : Statics :=
  {| framecount := framecount s; nondraw_framecount := nondraw_framecount s;
     didASavestate := didASavestate s; fps_statics := fps_statics s;
     skip_counter := skip_counter s; fps := v; lfps := l |}.

Definition set_shared_config (v : SharedConfig) (g : Globals) : Globals :=
  {| shared_config := v; game_info := game_info g;
     skipping_draw := skipping_draw g; saveBacktrack := saveBacktrack g;
     is_exiting := is_exiting g; ai := ai g; avencoder := avencoder g;
     alerts := alerts g |}.

Definition set_game_info (v : GameInfo) (g : Globals) : Globals :=
  {| shared_config := shared_config g; game_info := v;
     skipping_draw := skipping_draw g; saveBacktrack := saveBacktrack g;
     is_exiting := is_exiting g; ai := ai g; avencoder := avencoder g;
     alerts := alerts g |}.

Definition set_skipping_draw (v : bool) (g : Globals) : Globals :=
  {| shared_config := shared_config g; game_info := game_info g;
     skipping_draw := v; saveBacktrack := saveBacktrack g;
     is_exiting := is_exiting g; ai := ai g; avencoder := avencoder g;
     alerts := alerts g |}.

Definition set_saveBacktrack (v : bool) (g : Globals) : Globals :=
  {| shared_config := shared_config g; game_info := game_info g;
     skipping_draw := skipping_draw g; saveBacktrack := v;
     is_exiting := is_exiting g; ai := ai g; avencoder := avencoder g;
     alerts := alerts g |}.

Definition set_is_exiting (v : bool) (g : Globals) : Globals :=
  {| shared_config := shared_config g; game_info := game_info g;
     skipping_draw := skipping_draw g; saveBacktrack := saveBacktrack g;
     is_exiting := v; ai := ai g; avencoder := avencoder g;
     alerts := alerts g |}.

Definition set_ai (v : AllInputs) (g : Globals) : Globals :=
  {| shared_config := shared_config g; game_info := game_info g;
     skipping_draw := skipping_draw g; saveBacktrack := saveBacktrack g;
     is_exiting := is_exiting g; ai := v; avencoder := avencoder g;
     alerts := alerts g |}.

Definition set_avencoder (v : bool) (g : Globals) : Globals :=
  {| shared_config := shared_config g; game_info := game_info g;
     skipping_draw := skipping_draw g; saveBacktrack := saveBacktrack g;
     is_exiting := is_exiting g; ai := ai g; avencoder := v;
     alerts := alerts g |}.

Definition set_alerts (v : list string) (g : Globals) : Globals :=
  {| shared_config := shared_config g; game_info := game_info g;
     skipping_draw := skipping_draw g; saveBacktrack := saveBacktrack g;
     is_exiting := is_exiting g; ai := ai g; avencoder := avencoder g;
     alerts := v |}.

Definition set_timer (v : Timer) (o : Outside) : Outside :=
  {| timer := v; engine := engine o; clock_reads := clock_reads o;
     chan_in := chan_in o; chan_out := chan_out o; log := log o |}.

Definition set_engine (v : Engine) (o : Outside) : Outside :=
  {| timer := timer o; engine := v; clock_reads := clock_reads o;
     chan_in := chan_in o; chan_out := chan_out o; log := log o |}.

Definition set_clock_reads (v : nat) (o : Outside) : Outside :=
  {| timer := timer o; engine := engine o; clock_reads := v;
     chan_in := chan_in o; chan_out := chan_out o; log := log o |}.

Definition set_chan_in (v : list Item) (o : Outside) : Outside :=
  {| timer := timer o; engine := engine o; clock_reads := clock_reads o;
     chan_in := v; chan_out := chan_out o; log := log o |}.

Definition set_chan_out (v : list Item) (o : Outside) : Outside :=
  {| timer := timer o; engine := engine o; clock_reads := clock_reads o;
     chan_in := chan_in o; chan_out := v; log := log o |}.

Definition set_log (v : list Event) (o : Outside) : Outside :=
  {| timer := timer o; engine := engine o; clock_reads := clock_reads o;
     chan_in := chan_in o; chan_out := chan_out o; log := v |}.

(** [shared_config.av_dumping = v]. *)
Definition set_av_dumping (v : bool) (c : SharedConfig) : SharedConfig :=
  {| running := running c; fastforward := fastforward c;
     fastforward_mode := fastforward_mode c; av_dumping := v;
     backtrack_savestate := backtrack_savestate c;
     save_screenpixels := save_screenpixels c; osd := osd c;
     osd_encode := osd_encode c; debug_state := debug_state c;
     initial_framecount := initial_framecount c;
     recycle_threads := recycle_threads c |}.

(** *** The monad of the unit: a world, or the reason the call does not
    return *)

Inductive Halt :=
| ChannelStarved
| ProtocolViolation
| UndefinedBehaviour
| ProcessImageReplaced.

Inductive Result (A : Type) :=
| Ok (a : A) (w : World)
| Stop (h : Halt).
Arguments Ok {A} a w.
Arguments Stop {A} h.

Definition M (A : Type) := World -> Result A.

Definition ret {A} (a : A) : M A := fun w => Ok a w.

Definition bind {A B} (m : M A) (k : A -> M B) : M B :=
  fun w =>
    match m w with
    | Ok a w => k a w
    | Stop h => Stop h
    end.

Definition halt {A} (h : Halt) : M A := fun _ => Stop h.
Definition gets {A} (f : World -> A) : M A := fun w => Ok (f w) w.
Definition modify (f : World -> World) : M unit := fun w => Ok tt (f w).
Definition when (b : bool) (m : M unit) : M unit := if b then m else ret tt.


Notation "x <- c1 ;; c2" := (bind c1 (fun x => c2))
  (at level 61, c1 at next level, right associativity).
Notation "e1 ;; e2" := (bind e1 (fun _ => e2))
  (at level 61, right associativity).

(** *** Primitives *)

Definition emit (e : Event) : M unit :=
  modify (on_outside (fun o => set_log (log o ++ [e]) o)).

Definition debuglog (msg : string) : M unit := emit (EvDebuglog msg).

Definition send (i : Item) : M unit :=
  modify (on_outside (fun o => set_chan_out (chan_out o ++ [i]) o)).

Definition sendMessage (m : Message) : M unit := send (IMsg (code m)).
Definition sendString (s : string) : M unit := send (IString s).

(** A blocking read of the channel.  The model stops where the real read
    would block for ever, and where the next unit on the channel is not of
    the kind the caller reads. *)
Definition receiveItem : M Item :=
  fun w =>
    match chan_in (outside w) with
    | [] => Stop ChannelStarved
    | i :: rest => Ok i (on_outside (set_chan_in rest) w)
    end.

Definition receiveMessage : M Z :=
  i <- receiveItem ;;
  match i with IMsg c => ret c | _ => halt ProtocolViolation end.

Definition receiveString : M string :=
  i <- receiveItem ;;
  match i with IString s => ret s | _ => halt ProtocolViolation end.

Definition receiveInt : M Z :=
  i <- receiveItem ;;
  match i with IInt n => ret n | _ => halt ProtocolViolation end.

Definition receiveConfig : M SharedConfig :=
  i <- receiveItem ;;
  match i with IConfig c => ret c | _ => halt ProtocolViolation end.

Definition receiveInputs : M AllInputs :=
  i <- receiveItem ;;
  match i with IInputs a => ret a | _ => halt ProtocolViolation end.

(** The enumerator a received [int] is equal to, if any. *)
Definition decode (c : Z) : option Message :=
  find (fun m => code m =? c) all_messages.

Definition detTimer_getTicks : M timespec :=
  fun w =>
    let '(t, tm) := getTicks (timer (outside w)) in
    Ok t (on_outside (set_timer tm) w).

(** [NATIVECALL(clock_gettime(CLOCK_MONOTONIC, ...))]. *)
Definition clock_gettime : M timespec :=
  fun w =>
    let n := clock_reads (outside w) in
    Ok (clock_monotonic n) (on_outside (set_clock_reads (S n)) w).

(** [x & mask] as a condition. *)
Definition masked (x mask : Z) : bool := negb (Z.land x mask =? 0).

Definition config : M SharedConfig := gets (fun w => shared_config (globals w)).

(** *** [computeFPS] *)

Definition history_length : Z := 10.

Definition zero_time : timespec := {| tv_sec := 0; tv_nsec := 0 |}.

Fixpoint array_set {A} (i : nat) (v : A) (l : list A) : list A :=
  match l, i with
  | [], _ => []
  | _ :: l, O => v :: l
  | x :: l, S i => x :: array_set i v l
  end.

Definition float_1e9 : float := float_of_Z 1000000000.

(** [static_cast<float>(deltaFrames) * 1000000000.0f /
     (delta.tv_sec * 1000000000.0f + delta.tv_nsec)]. *)
Definition frames_per_second (deltaFrames : Z) (delta : timespec) : float :=
  float_div
    (float_mul (float_of_Z deltaFrames) float_1e9)
    (float_add (float_mul (float_of_Z (tv_sec delta)) float_1e9)
               (float_of_Z (tv_nsec delta))).

(** The two [int] counters are incremented only while they are below a
    bound that is an [int], so the increments cannot overflow. *)
Definition computeFPS : M unit :=
  cfg <- config ;;
  st <- gets (fun w => fps_statics (statics w)) ;;
  let freq := if negb (fastforward cfg) then 10 else fps_refresh_freq st in
  let rc := refresh_counter st + 1 in
  if rc >=? freq then
    let i := Z.to_nat (compute_counter st) in
    fc <- gets (fun w => framecount (statics w)) ;;
    let lastFrame := nth i (lastFrames st) 0 in
    let lastTime := nth i (lastTimes st) zero_time in
    now <- clock_gettime ;;
    let lastTick := nth i (lastTicks st) zero_time in
    ticks <- detTimer_getTicks ;;
    let deltaFrames := wrap_ulong (fc - lastFrame) in
    let deltaTime := TimeHolder_sub now lastTime in
    let deltaTicks := TimeHolder_sub ticks lastTick in
    let cc := compute_counter st + 1 in
    let wrapped := cc >=? history_length in
    let cc := if wrapped then 0 else cc in
    let can := if wrapped then true else can_output st in
    let store freq :=
      modify (on_statics (set_fps_statics
        {| can_output := can; fps_refresh_freq := freq;
           lastFrames := array_set i fc (lastFrames st);
           lastTimes := array_set i now (lastTimes st);
           lastTicks := array_set i ticks (lastTicks st);
           refresh_counter := 0; compute_counter := cc |})) in
    if can then
      let new_fps := frames_per_second deltaFrames deltaTime in
      let new_lfps := frames_per_second deltaFrames deltaTicks in
      modify (on_statics (set_fps_lfps new_fps new_lfps)) ;;
      if fastforward cfg then
        match int_of_float new_fps with
        | Some n => store (Z.quot n 4)
        | None => halt UndefinedBehaviour
        end
      else store freq
    else store freq
  else
    modify (on_statics (set_fps_statics
      {| can_output := can_output st; fps_refresh_freq := freq;
         lastFrames := lastFrames st; lastTimes := lastTimes st;
         lastTicks := lastTicks st;
         refresh_counter := rc; compute_counter := compute_counter st |})).

(** *** [skipDraw] *)

(** The value of [skip_freq] when the counter is tested.  [fps] is the
    function's own copy of the argument.  A shift of a 32-bit value by 32 or
    more is undefined: [None]. *)
Definition skip_frequency (fps : float) : option Z :=
  let shifted :=
    if float_gt fps (float_of_Z 1) then
      let fps := float_sub fps (float_of_Z 1) in
      let skip_freq := bits_of_float fps in
      let count := wrap_uint (Z.shiftr skip_freq 23 - 126 - 3) in
      if count <? 32 then Some (wrap_uint (Z.shiftl 1 count)) else None
    else Some 1 in
  match shifted with
  | Some skip_freq => Some (if skip_freq <? 4 then 4 else skip_freq)
  | None => None
  end.

Definition skipDraw (fps : float) : M bool :=
  cfg <- config ;;
  if negb (fastforward cfg) then ret false
  else if negb (running cfg) then ret false
  else if av_dumping cfg then ret false
  else if masked (fastforward_mode cfg) FF_RENDERING then ret true
  else
    match skip_frequency fps with
    | None => halt UndefinedBehaviour
    | Some skip_freq =>
        counter <- gets (fun w => skip_counter (statics w)) ;;
        let counter := wrap_uint (counter + 1) in
        if counter >=? skip_freq then
          modify (on_statics (set_skip_counter 0)) ;; ret false
        else
          modify (on_statics (set_skip_counter counter)) ;; ret true
    end.


(** *** [pushQuitEvent] and [screen_redraw] *)

Definition pushQuitEvent : M unit :=
  gi <- gets (fun w => game_info (globals w)) ;;
  if masked (video gi) GameInfo_SDL1 then emit EvQuitSDL1
  else if masked (video gi) GameInfo_SDL2 then emit EvQuitSDL2
  else emit EvQuitXlib.

(** The on-screen display, drawn in three places; [preview] is the extra
    input overlay of [screen_redraw]. *)
Definition render_hud (preview : option AllInputs) : M unit :=
  cfg <- config ;;
  emit EvHudResetOffsets ;;
  fc <- gets (fun w => framecount (statics w)) ;;
  when (masked (osd cfg) OSD_FRAMECOUNT) (emit (EvHudRenderFrame fc)) ;;
  inputs <- gets (fun w => ai (globals w)) ;;
  when (masked (osd cfg) OSD_INPUTS)
    (emit (EvHudRenderInputs inputs) ;;
     match preview with
     | Some p => emit (EvHudRenderPreviewInputs p)
     | None => ret tt
     end) ;;
  when (masked (osd cfg) OSD_MESSAGES) (emit EvHudRenderMessages) ;;
  when (masked (osd cfg) OSD_RAMWATCHES) (emit EvHudRenderWatches).

Definition screen_redraw (preview_ai : AllInputs) : M unit :=
  cfg <- config ;;
  skipping <- gets (fun w => skipping_draw (globals w)) ;;
  when (negb skipping && save_screenpixels cfg)
    (emit EvSetPixels ;;
     when LIBTAS_ENABLE_HUD (render_hud (Some preview_ai)) ;;
     emit EvDraw).

(** *** [receive_messages] *)

Definition send_framecount_time : M unit :=
  sendMessage MSGB_FRAMECOUNT_TIME ;;
  fc <- gets (fun w => framecount (statics w)) ;;
  send (IULong fc) ;;
  ticks <- detTimer_getTicks ;;
  send (ITimespec ticks).

(** The body of [case MSGN_SAVESTATE]. *)
Definition do_savestate : M unit :=
  modify (on_outside (fun o => set_engine (checkpoint (engine o)) o)) ;;
  emit EvSetCurrentToParent ;;
  modify (on_statics (set_didASavestate true)) ;;
  restoring <- gets (fun w => restoreInProgress (engine (outside w))) ;;
  when restoring
    (sendMessage MSGB_LOADING_SUCCEEDED ;;
     message <- receiveMessage ;;
     when (negb (message =? code MSGN_CONFIG))
       (emit (EvAssertFailed "message == MSGN_CONFIG")) ;;
     c <- receiveConfig ;;
     modify (on_globals (set_shared_config c)) ;;
     send_framecount_time ;;
     emit EvSetPixels).

(** The body of [case MSGN_LOADSTATE]. *)
Definition do_loadstate : M unit :=
  e <- gets (fun w => engine (outside w)) ;;
  match restore e with
  | None => halt ProcessImageReplaced
  | Some e => modify (on_outside (set_engine e)) ;; send_framecount_time
  end.

(** The body of [case MSGN_STOP_ENCODE]. *)
Definition do_stop_encode : M unit :=
  enc <- gets (fun w => avencoder (globals w)) ;;
  when enc
    (debuglog "Stop AV dumping" ;;
     emit EvEncoderDelete ;;
     modify (on_globals (set_avencoder false)) ;;
     modify (on_globals
       (fun g =>
          set_shared_config (set_av_dumping false (shared_config g)) g)) ;;
     emit (EvWindowTitleUpdate (float_of_Z (-1)) (float_of_Z (-1)))).

(** [while (1)]: every turn reads at least one unit from the channel, so
    [fuel] above the length of the channel is never used up. *)
Fixpoint receive_loop (fuel : nat) (preview_ai : AllInputs) : M unit :=
  match fuel with
  | O => halt ChannelStarved
  | S fuel =>
      message <- receiveMessage ;;
      match decode message with
      | Some MSGN_USERQUIT =>
          pushQuitEvent ;;
          modify (on_globals (set_is_exiting true)) ;;
          receive_loop fuel preview_ai
      | Some MSGN_CONFIG =>
          c <- receiveConfig ;;
          modify (on_globals (set_shared_config c)) ;;
          receive_loop fuel preview_ai
      | Some MSGN_DUMP_FILE =>
          debuglog "Receiving dump filename" ;;
          file <- receiveString ;;
          emit (EvSetDumpfile file) ;;
          debuglog "File " ;;
          options <- receiveString ;;
          emit (EvSetFfmpegOptions options) ;;
          receive_loop fuel preview_ai
      | Some MSGN_ALL_INPUTS =>
          a <- receiveInputs ;;
          modify (on_globals (set_ai a)) ;;
          receive_loop fuel preview_ai
      | Some MSGN_EXPOSE =>
          screen_redraw preview_ai ;;
          receive_loop fuel preview_ai
      | Some MSGN_PREVIEW_INPUTS =>
          a <- receiveInputs ;;
          screen_redraw a ;;
          receive_loop fuel a
      | Some MSGN_SAVESTATE_PATH =>
          path <- receiveString ;;
          emit (EvSetSavestatePath path) ;;
          receive_loop fuel preview_ai
      | Some MSGN_SAVESTATE_INDEX =>
          index <- receiveInt ;;
          emit (EvSetSavestateIndex index) ;;
          receive_loop fuel preview_ai
      | Some MSGN_SAVESTATE =>
          do_savestate ;;
          receive_loop fuel preview_ai
      | Some MSGN_LOADSTATE =>
          do_loadstate ;;
          receive_loop fuel preview_ai
      | Some MSGN_STOP_ENCODE =>
          do_stop_encode ;;
          receive_loop fuel preview_ai
      | Some MSGN_OSD_MSG =>
          when LIBTAS_ENABLE_HUD
            (text <- receiveString ;;
             emit (EvHudInsertMessage text) ;;
             screen_redraw preview_ai) ;;
          receive_loop fuel preview_ai
      | Some MSGN_END_FRAMEBOUNDARY => ret tt
      | _ => debuglog "Unknown message received" ;; ret tt
      end
  end.

Definition receive_messages : M unit :=
  pending <- gets (fun w => chan_in (outside w)) ;;
  receive_loop (S (List.length pending)) emptyInputs.


(** *** [frameBoundary] *)

(** [while (getAlertMsg(alert)) { sendMessage(MSGB_ALERT_MSG);
    sendString(alert); }]: [getAlertMsg] takes the pending alerts off their
    queue one by one. *)
Fixpoint send_alerts (pending : list string) : M unit :=
  match pending with
  | [] => ret tt
  | alert :: pending =>
      sendMessage MSGB_ALERT_MSG ;;
      sendString alert ;;
      send_alerts pending
  end.

(** "Ask the program to perform a backtrack savestate". *)
Definition ask_backtrack_savestate : M unit :=
  requested <- gets (fun w => saveBacktrack (globals w)) ;;
  when requested
    (cfg <- config ;;
     did <- gets (fun w => didASavestate (statics w)) ;;
     when (backtrack_savestate cfg && did)
       (sendMessage MSGB_DO_BACKTRACK_SAVESTATE) ;;
     modify (on_globals (set_saveBacktrack false))).

(** Everything [frameBoundary] sends before the last message of the
    exchange: alerts, frame count and time, game information, fps, and the
    request for a backtrack savestate. *)
Definition send_frame_information : M unit :=
  pending <- gets (fun w => alerts (globals w)) ;;
  modify (on_globals (set_alerts [])) ;;
  send_alerts pending ;;
  send_framecount_time ;;
  gi <- gets (fun w => game_info (globals w)) ;;
  when (tosend gi)
    (sendMessage MSGB_GAMEINFO ;;
     send (IGameInfo gi) ;;
     modify (on_globals
       (set_game_info {| tosend := false; video := video gi |}))) ;;
  sendMessage MSGB_FPS ;;
  f <- gets (fun w => fps (statics w)) ;;
  send (IFloat f) ;;
  lf <- gets (fun w => lfps (statics w)) ;;
  send (IFloat lf) ;;
  ask_backtrack_savestate.

(** [while (message == MSGN_RAMWATCH)]: every turn reads two units. *)
Fixpoint receive_ramwatches (fuel : nat) (message : Z) : M unit :=
  if message =? code MSGN_RAMWATCH then
    match fuel with
    | O => halt ChannelStarved
    | S fuel =>
        ramwatch <- receiveString ;;
        when LIBTAS_ENABLE_HUD (emit (EvHudInsertWatch ramwatch)) ;;
        message <- receiveMessage ;;
        receive_ramwatches fuel message
    end
  else ret tt.

(** "Dumping audio and video". *)
Definition dump_audio_video (drawFB : bool) : M unit :=
  cfg <- config ;;
  enc <- gets (fun w => avencoder (globals w)) ;;
  if av_dumping cfg then
    when (negb enc)
      (debuglog "Start AV dumping on file " ;;
       emit EvEncoderNew ;;
       modify (on_globals (set_avencoder true))) ;;
    emit (EvEncodeOneFrame drawFB)
  else
    when enc
      (debuglog "Stop AV dumping" ;;
       emit EvEncoderDelete ;;
       modify (on_globals (set_avencoder false))).

(** "Process inputs and events". *)
Definition process_inputs_and_events : M unit :=
  gi <- gets (fun w => game_info (globals w)) ;;
  when (masked (video gi) GameInfo_SDL1 || masked (video gi) GameInfo_SDL2)
    (emit EvPushNativeSDLEvents) ;;
  cfg <- config ;;
  when (negb (masked (debug_state cfg) DEBUG_NATIVE_EVENTS))
    (emit EvPushNativeXlibEvents) ;;
  emit EvUpdateGameInputs ;;
  when (negb (masked (debug_state cfg) DEBUG_NATIVE_EVENTS))
    (emit EvGenerateKeyUpEvents ;;
     emit EvGenerateKeyDownEvents ;;
     fc <- gets (fun w => framecount (statics w)) ;;
     when (fc =? initial_framecount cfg + 1) (emit EvGenerateControllerAdded) ;;
     emit EvGenerateControllerEvents ;;
     emit EvGenerateMouseMotionEvents ;;
     emit EvGenerateMouseButtonEvents) ;;
  emit EvSyncEvents.

(** A condition on [skipping_draw], read where it is tested. *)
Definition unless_skipping (m : M unit) : M unit :=
  skipping <- gets (fun w => skipping_draw (globals w)) ;;
  when (negb skipping) m.

(** [frameBoundary] from the last message it sends up to the actual draw
    command.  [draw] is the game's own drawing call; the model records
    that it was made. *)
Definition frame_from_marker (drawFB : bool) : M unit :=
  (* Last message to send *)
  sendMessage MSGB_START_FRAMEBOUNDARY ;;
  when LIBTAS_ENABLE_HUD (emit EvHudResetWatches) ;;
  pending <- gets (fun w => chan_in (outside w)) ;;
  message <- receiveMessage ;;
  receive_ramwatches (List.length pending) message ;;
  (* Rendering *)
  when (negb drawFB)
    (modify (on_statics
       (fun s =>
          set_nondraw_framecount (wrap_ulong (nondraw_framecount s + 1)) s))) ;;
  f <- gets (fun w => fps (statics w)) ;;
  lf <- gets (fun w => lfps (statics w)) ;;
  unless_skipping (emit (EvWindowTitleUpdate f lf)) ;;
  cfg <- config ;;
  unless_skipping
    (when (drawFB && save_screenpixels cfg) (emit EvStorePixels)) ;;
  when LIBTAS_ENABLE_HUD
    (unless_skipping (when (osd_encode cfg) (render_hud None))) ;;
  dump_audio_video drawFB ;;
  when LIBTAS_ENABLE_HUD
    (unless_skipping (when (negb (osd_encode cfg)) (render_hud None))) ;;
  unless_skipping (emit EvDraw).

(** [frameBoundary] up to the actual draw command. *)
Definition frame_until_draw (drawFB : bool) : M unit :=
  emit EvSetMainThread ;;
  (* Update time *)
  modify (on_statics
    (fun s => set_framecount (wrap_ulong (framecount s + 1)) s)) ;;
  when drawFB computeFPS ;;
  modify (on_outside (fun o => set_timer (enterFrameBoundary (timer o)) o)) ;;
  (* Send information to the game *)
  send_frame_information ;;
  frame_from_marker drawFB.

(** [frameBoundary] after [receive_messages] has returned. *)
Definition frame_after_messages (drawFB restore_screen : bool) : M unit :=
  cfg <- config ;;
  when restore_screen
    (unless_skipping
       (when (drawFB && save_screenpixels cfg) (emit EvSetPixels))) ;;
  process_inputs_and_events ;;
  (* Decide if we skip drawing the next frame *)
  f <- gets (fun w => fps (statics w)) ;;
  skip <- skipDraw f ;;
  modify (on_globals (set_skipping_draw skip)) ;;
  modify (on_outside (fun o => set_timer (exitFrameBoundary (timer o)) o)).

Definition frameBoundary (drawFB restore_screen : bool) : M unit :=
  frame_until_draw drawFB ;;
  receive_messages ;;
  frame_after_messages drawFB restore_screen.

(** *** Worlds, runs and tags that the properties speak of *)

(** The world after [items] went out on the channel. *)
Definition sent (items : list Item) (w : World) : World :=
  on_outside (fun o => set_chan_out (chan_out o ++ items) o) w.

(** What [send_alerts] puts on the channel. *)
Definition alert_items (pending : list string) : list Item :=
  flat_map (fun alert => [IMsg (code MSGB_ALERT_MSG); IString alert]) pending.

(** The [case] labels of the [switch] in [receive_messages]. *)
Definition handled : list Message :=
  [ MSGN_USERQUIT; MSGN_CONFIG; MSGN_DUMP_FILE; MSGN_ALL_INPUTS; MSGN_EXPOSE;
    MSGN_PREVIEW_INPUTS; MSGN_SAVESTATE_PATH; MSGN_SAVESTATE_INDEX;
    MSGN_SAVESTATE; MSGN_LOADSTATE; MSGN_STOP_ENCODE; MSGN_OSD_MSG;
    MSGN_END_FRAMEBOUNDARY ].

(** A tag that is the value of no [case] label. *)
Definition unrecognized (c : Z) : Prop :=
  forall m, In m handled -> c <> code m.

(** The world after the message at the head of the channel was read. *)
Definition read_one (rest : list Item) (w : World) : World :=
  on_outside (set_chan_in rest) w.

(** The world after a call of [debuglog]. *)
Definition logged (msg : string) (w : World) : World :=
  on_outside (fun o => set_log (log o ++ [EvDebuglog msg]) o) w.

(** Two worlds that differ at most in the log of calls. *)
Definition same_but_log (w1 w2 : World) : Prop :=
  statics w1 = statics w2
  /\ globals w1 = globals w2
  /\ timer (outside w1) = timer (outside w2)
  /\ engine (outside w1) = engine (outside w2)
  /\ clock_reads (outside w1) = clock_reads (outside w2)
  /\ chan_in (outside w1) = chan_in (outside w2)
  /\ chan_out (outside w1) = chan_out (outside w2).

(** Two runs that end the same way: with the same reason to stop, or with
    the same result in worlds that differ at most in the log. *)
Definition same_outcome {A} (r1 r2 : Result A) : Prop :=
  match r1, r2 with
  | Ok a w1, Ok b w2 => a = b /\ same_but_log w1 w2
  | Stop h1, Stop h2 => h1 = h2
  | _, _ => False
  end.

(** The configuration lets [skipDraw] count: fast-forward is on, the game
    runs, nothing is encoded and the fast-forward mode does not skip all
    rendering. *)
Definition counts_frames (w : World) : Prop :=
  fastforward (shared_config (globals w)) = true
  /\ running (shared_config (globals w)) = true
  /\ av_dumping (shared_config (globals w)) = false
  /\ masked (fastforward_mode (shared_config (globals w))) FF_RENDERING
     = false.

(** Consecutive calls of [frameBoundary], each with its draw flag and its
    [restore_screen]; the control channel holds the controller's answers to
    all of them. *)
Fixpoint frames (calls : list (bool * bool)) : M unit :=
  match calls with
  | [] => ret tt
  | (drawFB, restore_screen) :: calls =>
      frameBoundary drawFB restore_screen ;; frames calls
  end.

(** The decisions of [n] consecutive calls of [skipDraw] with the same
    frames per second. *)
Fixpoint skip_decisions (n : nat) (f : float) : M (list bool) :=
  match n with
  | O => ret []
  | S n =>
      skip <- skipDraw f ;;
      rest <- skip_decisions n f ;;
      ret (skip :: rest)
  end.

(** A computation whose runs that return relate the world before to the
    world after by [R]. *)
Definition respects (R : World -> World -> Prop) {A} (m : M A) : Prop :=
  forall w a w', m w = Ok a w' -> R w w'.

(** The frame counter is the same in both worlds. *)
Definition same_framecount (w w' : World) : Prop :=
  framecount (statics w') = framecount (statics w).

(** The second world has no more to read from the controller than the
    first. *)
Definition channel_not_longer (w w' : World) : Prop :=
  (List.length (chan_in (outside w'))
   <= List.length (chan_in (outside w)))%nat.

(** What it takes for every part of the unit, but the increment of the
    frame counter, to respect a relation: it is a preorder that holds across
    a change of the globals, across a change of the statics that keeps the
    frame counter, and across a change outside the process that does not
    lengthen what is to be read from the controller. *)
Class Invariance (R : World -> World -> Prop) : Prop := {
  inv_refl : forall w, R w w;
  inv_trans : forall w1 w2 w3, R w1 w2 -> R w2 w3 -> R w1 w3;
  inv_globals : forall f w, R w (on_globals f w);
  inv_statics : forall f w,
    framecount (f (statics w)) = framecount (statics w) ->
    R w (on_statics f w);
  inv_outside : forall f w,
    (List.length (chan_in (f (outside w)))
     <= List.length (chan_in (outside w)))%nat ->
    R w (on_outside f w)
}.

(** Nothing went out on the channel between the two worlds, and the
    globals and [didASavestate] are the same. *)
Definition nothing_sent (w w' : World) : Prop :=
  chan_out (outside w') = chan_out (outside w)
  /\ globals w' = globals w
  /\ didASavestate (statics w') = didASavestate (statics w).

(** What went out on the channel between the two worlds are items that
    all satisfy [P]. *)
Definition sends_only (P : Item -> Prop) (w w' : World) : Prop :=
  exists later,
    chan_out (outside w') = chan_out (outside w) ++ later /\ Forall P later.

(** An item that is neither the request for a backtrack savestate nor the
    marker of the start of the frame boundary. *)
Definition no_request_no_marker (i : Item) : Prop :=
  i <> IMsg (code MSGB_DO_BACKTRACK_SAVESTATE)
  /\ i <> IMsg (code MSGB_START_FRAMEBOUNDARY).

(** A computation that does not read the log. *)
Definition log_blind {A} (m : M A) : Prop :=
  forall w1 w2, same_but_log w1 w2 -> same_outcome (m w1) (m w2).

End FrameUnit.

Arguments Ok {Timer Engine AllInputs A} a w.
Arguments Stop {Timer Engine AllInputs A} h.

End Frame.

(** ** A small implementation of the collaborators

    The theorems below hold for every implementation of the collaborators.
    The one given here lets the wrappers and the frame boundary run on
    concrete worlds. *)

Module Reference.

Import Pthread.

(** Modelled from the spec: [ThreadManager] is not among the sources.  The
    registry is the list of its [ThreadInfo] slots and a [ThreadInfo*] is a
    position in it.  A lookup is by identity; detaching marks the slot and
    parks a zombie; an exiting thread becomes a zombie that holds its return
    value; a dead thread's slot is free again; allocation prefers a parked
    slot, whose OS thread is alive, to a new one. *)
Definition Registry := list ThreadInfo.

Definition blank : ThreadInfo :=
  {| state := ST_UNINITIALIZED; pthread_id := 0; tid := 0; start := 0;
     arg := 0; routine_id := 0; detached := false; retval := 0;
     quit := false |}.

Definition slot (r : Registry) (p : ThreadPtr) : ThreadInfo := nth p r blank.

Fixpoint change (p : ThreadPtr) (f : ThreadInfo -> ThreadInfo) (r : Registry)
  : Registry :=
  match r, p with
  | [], _ => []
  | t :: r, O => f t :: r
  | t :: r, S p => t :: change p f r
  end.

Definition with_state (s : ThreadState) (t : ThreadInfo) : ThreadInfo :=
  {| state := s; pthread_id := pthread_id t; tid := tid t; start := start t;
     arg := arg t; routine_id := routine_id t; detached := detached t;
     retval := retval t; quit := quit t |}.

Definition with_detached (d : bool) (t : ThreadInfo) : ThreadInfo :=
  {| state := state t; pthread_id := pthread_id t; tid := tid t;
     start := start t; arg := arg t; routine_id := routine_id t;
     detached := d; retval := retval t; quit := quit t |}.

Definition with_retval (v : ptr) (t : ThreadInfo) : ThreadInfo :=
  {| state := state t; pthread_id := pthread_id t; tid := tid t;
     start := start t; arg := arg t; routine_id := routine_id t;
     detached := detached t; retval := v; quit := quit t |}.

Definition with_routine (s a : ptr) (t : ThreadInfo) : ThreadInfo :=
  {| state := ST_RUNNING; pthread_id := pthread_id t; tid := tid t;
     start := s; arg := a; routine_id := routine_id t + 1;
     detached := false; retval := 0; quit := quit t |}.

Fixpoint position (keep : ThreadInfo -> bool) (r : Registry)
  : option ThreadPtr :=
  match r with
  | [] => None
  | t :: r =>
      if keep t then Some O
      else match position keep r with
           | Some p => Some (S p)
           | None => None
           end
  end.

Definition in_use (t : ThreadInfo) : bool :=
  negb (ThreadState_eqb (state t) ST_UNINITIALIZED
        || ThreadState_eqb (state t) ST_QUIT).

Definition lookup (id : pthread_t) (r : Registry) : option ThreadPtr :=
  position (fun t => in_use t && (pthread_id t =? id)) r.

Definition detach_slot (t : ThreadInfo) : ThreadInfo :=
  with_detached true
    (if ThreadState_eqb (state t) ST_ZOMBIE then with_state ST_PARKED t
     else t).

#[export] Instance manager : ThreadManager Registry := {
  thread_at := slot;
  store_detached := fun p d => change p (with_detached d);
  getThread := lookup;
  getNewThread := fun r =>
    match position (fun t => ThreadState_eqb (state t) ST_PARKED) r with
    | Some p => (p, r)
    | None => (List.length r, r ++ [blank])
    end;
  initThreadFromParent := fun p s a _ r =>
    (ThreadState_eqb (state (slot r p)) ST_PARKED,
     change p (with_routine s a) r);
  initThreadFromChild := fun p r => r;
  update := fun p r => r;
  setCurrentThread := fun p r => r;
  threadExit := fun p v =>
    change p (fun t =>
      with_state ST_ZOMBIE
        (match v with Some v => with_retval v t | None => t end));
  threadIsDead := fun p => change p (with_state ST_QUIT);
  threadDetach := fun id r =>
    match lookup id r with
    | Some p => change p detach_slot r
    | None => r
    end
}.

(** Modelled from the spec: [ThreadSync] is not among the sources.  The
    wrapper execution lock and the count of threads whose registration is
    not complete. *)
Record SyncState := { locked : bool; uninitialized : Z }.

#[export] Instance thread_sync : ThreadSync SyncState := {
  wrapperExecutionLockLock := fun s =>
    {| locked := true; uninitialized := uninitialized s |};
  wrapperExecutionLockUnlock := fun s =>
    {| locked := false; uninitialized := uninitialized s |};
  incrementUninitializedThreadCount := fun s =>
    {| locked := locked s; uninitialized := uninitialized s + 1 |};
  decrementUninitializedThreadCount := fun s =>
    {| locked := locked s; uninitialized := uninitialized s - 1 |};
  waitForThreadsToFinishInitialization := fun s => s
}.

(** A quiet system: nothing else runs while the caller is blocked, the OS
    refuses to create a thread for the start routine 0 with [EAGAIN] and
    creates it otherwise, and a start routine at an odd address ends in
    [pthread_exit]. *)
Definition EAGAIN : Z := 11.

#[export] Instance quiet : Native Registry := {
  orig_pthread_create := fun p r =>
    if start (slot r p) =? 0 then (EAGAIN, 0, r)
    else (0, 1000 + Z.of_nat p, r);
  orig_pthread_join := fun id r => (0, 0, r);
  orig_pthread_detach := fun id r => (0, r);
  orig_pthread_tryjoin_np := fun id r => (EBUSY, 0, r);
  orig_pthread_timedjoin_np := fun id ts r => (ETIMEDOUT, 0, r);
  native_nanosleep := fun ts r => r;
  cv_wait := fun p r => r;
  run_routine := fun s a r =>
    (if Z.odd s then CallsPthreadExit a else Returns a, r)
}.

(** A busy system: the other threads run while the caller sleeps.  The
    [arg] of a running thread is the number of milliseconds its routine
    still needs; the thread is a zombie after the sleep that covers them.
    The rest is as in the quiet system. *)
Definition run_for (ms : Z) (t : ThreadInfo) : ThreadInfo :=
  if ThreadState_eqb (state t) ST_RUNNING then
    if arg t <=? ms then with_state ST_ZOMBIE t
    else
      {| state := state t; pthread_id := pthread_id t; tid := tid t;
         start := start t; arg := arg t - ms; routine_id := routine_id t;
         detached := detached t; retval := retval t; quit := quit t |}
  else t.

Definition milliseconds (ts : timespec) : Z :=
  tv_sec ts * 1000 + tv_nsec ts / 1000000.

Definition busy : Native Registry := {|
  orig_pthread_create := orig_pthread_create (Native := quiet);
  orig_pthread_join := orig_pthread_join (Native := quiet);
  orig_pthread_detach := orig_pthread_detach (Native := quiet);
  orig_pthread_tryjoin_np := orig_pthread_tryjoin_np (Native := quiet);
  orig_pthread_timedjoin_np := orig_pthread_timedjoin_np (Native := quiet);
  native_nanosleep := fun ts r => map (run_for (milliseconds ts)) r;
  cv_wait := cv_wait (Native := quiet);
  run_routine := run_routine (Native := quiet)
|}.

Definition config (recycle : bool) : SharedConfig :=
  {| running := true; fastforward := false; fastforward_mode := 0;
     av_dumping := false; backtrack_savestate := true;
     save_screenpixels := true; osd := 0; osd_encode := false;
     debug_state := 0; initial_framecount := 0;
     recycle_threads := recycle |}.

Definition thread (s : ThreadState) (id : pthread_t) (entry : ptr)
  (d : bool) (v : ptr) : ThreadInfo :=
  {| state := s; pthread_id := id; tid := id; start := entry; arg := 5;
     routine_id := 1; detached := d; retval := v; quit := false |}.

(** Four logical threads: 11 runs, 12 is detached, 13 has finished with
    the return value 77, 14 runs a routine that ends in [pthread_exit]. *)
Definition threads : Registry :=
  [ thread ST_RUNNING 11 4096 false 0;
    thread ST_RUNNING 12 4096 true 0;
    thread ST_ZOMBIE 13 4096 false 77;
    thread ST_RUNNING 14 4097 false 0 ].

Definition world (recycle : bool) : World :=
  {| registry := threads;
     sync := {| locked := false; uninitialized := 0 |};
     Pthread.shared_config := config recycle;
     isNative := false;
     trace := [] |}.


(** *** The frame boundary's collaborators *)

Import Frame.

(** Modelled from the spec: [shared/messages.h], [SharedConfig.h],
    [GameInfo.h], [DeterministicTimer], [TimeHolder] and the checkpoint
    engine are not among the sources.  The enumerators are numbered from 1
    in the order [frame.cpp] names them; the timer is the virtual time in
    nanoseconds, a frame lasts 1/60 s; the engine is the number of the
    situation it is in: 1 when the call returning from [checkpoint] is the
    resumption of a restore, 2 when a restore will succeed. *)
Definition message_code (m : Message) : Z :=
  match m with
  | MSGN_USERQUIT => 1
  | MSGN_CONFIG => 2
  | MSGN_DUMP_FILE => 3
  | MSGN_ALL_INPUTS => 4
  | MSGN_EXPOSE => 5
  | MSGN_PREVIEW_INPUTS => 6
  | MSGN_SAVESTATE_PATH => 7
  | MSGN_SAVESTATE_INDEX => 8
  | MSGN_SAVESTATE => 9
  | MSGN_LOADSTATE => 10
  | MSGN_STOP_ENCODE => 11
  | MSGN_OSD_MSG => 12
  | MSGN_END_FRAMEBOUNDARY => 13
  | MSGN_RAMWATCH => 14
  | MSGB_ALERT_MSG => 15
  | MSGB_FRAMECOUNT_TIME => 16
  | MSGB_GAMEINFO => 17
  | MSGB_FPS => 18
  | MSGB_DO_BACKTRACK_SAVESTATE => 19
  | MSGB_START_FRAMEBOUNDARY => 20
  | MSGB_LOADING_SUCCEEDED => 21
  end.

Lemma message_code_inj : forall a b, message_code a = message_code b -> a = b.
Proof.
  intros a b; destruct a, b; simpl; intro H; try reflexivity;
    discriminate H.
Qed.

Definition time_of_ns (n : Z) : timespec :=
  {| tv_sec := n / 1000000000; tv_nsec := n mod 1000000000 |}.

Definition ns_of_time (t : timespec) : Z := tv_sec t * 1000000000 + tv_nsec t.

#[export] Instance frame_deps : FrameDeps Z Z Z := {
  code := message_code;
  code_inj := message_code_inj;
  FF_RENDERING := 4;
  OSD_FRAMECOUNT := 1;
  OSD_INPUTS := 2;
  OSD_MESSAGES := 4;
  OSD_RAMWATCHES := 8;
  DEBUG_NATIVE_EVENTS := 1;
  GameInfo_SDL1 := 1;
  GameInfo_SDL2 := 2;
  LIBTAS_ENABLE_HUD := true;
  enterFrameBoundary := fun t => t + 16666667;
  exitFrameBoundary := fun t => t;
  getTicks := fun t => (time_of_ns t, t);
  TimeHolder_sub := fun a b => time_of_ns (ns_of_time a - ns_of_time b);
  clock_monotonic := fun n => time_of_ns (Z.of_nat n * 1000000);
  checkpoint := fun e => e;
  restoreInProgress := fun e => e =? 1;
  restore := fun e => if e =? 2 then None else Some e;
  emptyInputs := 0
}.

Definition frame_config (ff run dumping backtrack : bool) (mode : Z)
  : SharedConfig :=
  {| running := run; fastforward := ff; fastforward_mode := mode;
     av_dumping := dumping; backtrack_savestate := backtrack;
     save_screenpixels := true; osd := 15; osd_encode := false;
     debug_state := 0; initial_framecount := 0; recycle_threads := true |}.

(** The statics as the loader initialises them. *)
Definition initial_fps_statics : FPSStatics :=
  {| can_output := false; fps_refresh_freq := 15;
     lastFrames := repeat 0 10;
     lastTimes := repeat zero_time 10;
     lastTicks := repeat zero_time 10;
     refresh_counter := 0; compute_counter := 0 |}.

Definition frame_statics (frames : Z) (did : bool) (f : float) : Statics :=
  {| framecount := frames; nondraw_framecount := 0; didASavestate := did;
     fps_statics := initial_fps_statics; skip_counter := 0;
     fps := f; lfps := f |}.

Definition frame_globals (c : SharedConfig) (backtrack : bool)
  : @Globals Z :=
  {| Frame.shared_config := c;
     game_info := {| tosend := true; video := 2 |};
     skipping_draw := false; saveBacktrack := backtrack;
     is_exiting := false; ai := 0; avencoder := false;
     alerts := ["Could not open file"%string] |}.

Definition frame_outside (incoming : list (@Item Z)) : @Outside Z Z Z :=
  {| timer := 0; engine := 0; clock_reads := 0; chan_in := incoming;
     chan_out := []; log := [] |}.

Definition frame_world (frames : Z) (did : bool) (f : float)
  (c : SharedConfig) (backtrack : bool) (incoming : list (@Item Z))
  : @Frame.World Z Z Z :=
  {| statics := frame_statics frames did f;
     globals := frame_globals c backtrack;
     outside := frame_outside incoming |}.

(** The shortest answer of the controller to a frame: no ram watch, then
    the end of the frame boundary. *)
Definition shortest_answer : list (@Item Z) :=
  [IMsg (code MSGN_END_FRAMEBOUNDARY); IMsg (code MSGN_END_FRAMEBOUNDARY)].

(** 64.5, 60 and 3 frames per second.  64.5 is 129 / 2, with the 24-bit
    significand of a [float]. *)
Definition fps_64_5 : float := S754_finite false 8454144 (-17).
Definition fps_60 : float := float_of_Z 60.
Definition fps_3 : float := float_of_Z 3.

(** *** Worlds for the examples *)

Definition short_time : timespec := {| tv_sec := 0; tv_nsec := 5000 |}.

(** Fast-forward is on and the game runs. *)
Definition fast (frames : Z) (f : float) (incoming : list (@Item Z))
  : @Frame.World Z Z Z :=
  frame_world frames true f (frame_config true true false true 0) false
    incoming.

(** A request is pending and a savestate was made, but the configuration
    disables backtrack savestates. *)
Definition backtrack_disabled : @Frame.World Z Z Z :=
  frame_world 0 true fps_60 (frame_config false true false false 0) true
    shortest_answer.

(** The same with backtrack savestates enabled. *)
Definition backtrack_enabled : @Frame.World Z Z Z :=
  frame_world 0 true fps_60 (frame_config false true false true 0) true
    shortest_answer.

End Reference.

(** ** Properties of the pthread wrappers *)

Section PthreadProperties.

Import Pthread.

Context {Registry Sync : Type}.
Context {TM : ThreadManager Registry}.
Context {TS : ThreadSync Sync}.
Context {NA : Native Registry}.

Abbreviation World := (@World Registry Sync).

Lemma registry_entered msg (w : World) : registry (entered msg w) = registry w.
Proof. reflexivity. Qed.

Lemma registry_unlock (w : World) :
  registry (on_sync wrapperExecutionLockUnlock w) = registry w.
Proof. reflexivity. Qed.

(** [pthread_join] on an unknown identity. *)
Lemma pthread_join_unknown fuel pthread_id thread_return (w : World) :
  isNative w = false ->
  getThread pthread_id (registry w) = None ->
  pthread_join fuel pthread_id thread_return w =
  Some (ESRCH, None,
        on_sync wrapperExecutionLockUnlock (entered "Joining thread " w)).
Proof.
  intros Hnative Hlookup. unfold pthread_join. rewrite Hnative.
  cbn [registry on_sync debuglog emit]. rewrite Hlookup. reflexivity.
Qed.

(** [pthread_join] on a detached thread. *)
Lemma pthread_join_detached fuel pthread_id thread_return thread (w : World) :
  isNative w = false ->
  getThread pthread_id (registry w) = Some thread ->
  detached (thread_at (registry w) thread) = true ->
  pthread_join fuel pthread_id thread_return w =
  Some (EINVAL, None,
        on_sync wrapperExecutionLockUnlock (entered "Joining thread " w)).
Proof.
  intros Hnative Hlookup Hdetached. unfold pthread_join. rewrite Hnative.
  cbn [registry on_sync debuglog emit]. rewrite Hlookup, Hdetached.
  reflexivity.
Qed.

(** [pthread_detach] on an unknown identity. *)
Lemma pthread_detach_unknown pthread_id (w : World) :
  isNative w = false ->
  getThread pthread_id (registry w) = None ->
  pthread_detach pthread_id w =
  (ESRCH, on_sync wrapperExecutionLockUnlock (entered "Detaching thread " w)).
Proof.
  intros Hnative Hlookup. unfold pthread_detach. rewrite Hnative.
  cbn [registry on_sync debuglog emit]. rewrite Hlookup. reflexivity.
Qed.

(** [pthread_detach] on a detached thread. *)
Lemma pthread_detach_detached pthread_id thread (w : World) :
  isNative w = false ->
  getThread pthread_id (registry w) = Some thread ->
  detached (thread_at (registry w) thread) = true ->
  pthread_detach pthread_id w =
  (EINVAL, on_sync wrapperExecutionLockUnlock (entered "Detaching thread " w)).
Proof.
  intros Hnative Hlookup Hdetached. unfold pthread_detach. rewrite Hnative.
  cbn [registry on_sync debuglog emit]. rewrite Hlookup, Hdetached.
  reflexivity.
Qed.

(** C6.  In non-native mode [pthread_join] and [pthread_detach] return
    [ESRCH] for an identity the registry does not know and [EINVAL] for a
    thread that is already detached, and in both cases the registry after
    the call is the registry before it. *)
Theorem join_detach_failures fuel pthread_id thread_return (w : World) :
  isNative w = false ->
  (getThread pthread_id (registry w) = None ->
   (exists w',
      pthread_join fuel pthread_id thread_return w = Some (ESRCH, None, w')
      /\ registry w' = registry w)
   /\ (exists w',
         pthread_detach pthread_id w = (ESRCH, w')
         /\ registry w' = registry w))
  /\ (forall thread,
        getThread pthread_id (registry w) = Some thread ->
        detached (thread_at (registry w) thread) = true ->
        (exists w',
           pthread_join fuel pthread_id thread_return w
           = Some (EINVAL, None, w')
           /\ registry w' = registry w)
        /\ (exists w',
              pthread_detach pthread_id w = (EINVAL, w')
              /\ registry w' = registry w)).
Proof.
  intro Hnative. split.
  - intro Hlookup. split; eexists; split.
    + apply pthread_join_unknown; assumption.
    + reflexivity.
    + apply pthread_detach_unknown; assumption.
    + reflexivity.
  - intros thread Hlookup Hdetached. split; eexists; split.
    + eapply pthread_join_detached; eassumption.
    + reflexivity.
    + eapply pthread_detach_detached; eassumption.
    + reflexivity.
Qed.

(** C10.  In non-native mode [pthread_timedjoin_np] answers a timeout with
    negative seconds, or with a billion nanoseconds or more, by [EINVAL]:
    nothing is stored, the world it returns is the one it entered with the
    lock released again, whatever the identity, and the registry is the
    one before the call. *)
Theorem timedjoin_invalid_timeout pthread_id retval abstime (w : World) :
  isNative w = false ->
  tv_sec abstime < 0 \/ tv_nsec abstime >= 1000000000 ->
  pthread_timedjoin_np pthread_id retval abstime w =
  (EINVAL, None,
   on_sync wrapperExecutionLockUnlock (entered "Try to join thread in " w))
  /\ registry (snd (pthread_timedjoin_np pthread_id retval abstime w))
     = registry w.
Proof.
  intros Hnative Hbad.
  assert (Hcode : pthread_timedjoin_np pthread_id retval abstime w =
    (EINVAL, None,
     on_sync wrapperExecutionLockUnlock (entered "Try to join thread in " w))).
  { unfold pthread_timedjoin_np. rewrite Hnative.
    assert (Htest : (tv_sec abstime <? 0) || (tv_nsec abstime >=? 1000000000)
                    = true).
    { apply orb_true_iff. destruct Hbad as [Hsec | Hnsec].
      - left. apply Z.ltb_lt. exact Hsec.
      - right. apply Z.geb_le. lia. }
    rewrite Htest. reflexivity. }
  split.
  - exact Hcode.
  - rewrite Hcode. reflexivity.
Qed.


Lemma not_zombie (s : ThreadState) :
  s <> ST_ZOMBIE -> ThreadState_eqb s ST_ZOMBIE = false.
Proof. destruct s; intro H; try reflexivity. exfalso. apply H. reflexivity. Qed.

Lemma is_zombie (s : ThreadState) :
  s = ST_ZOMBIE -> ThreadState_eqb s ST_ZOMBIE = true.
Proof. intro H. rewrite H. reflexivity. Qed.

Lemma valid_timeout (abstime : timespec) :
  0 <= tv_sec abstime -> tv_nsec abstime < 1000000000 ->
  (tv_sec abstime <? 0) || (tv_nsec abstime >=? 1000000000) = false.
Proof.
  intros Hsec Hnsec. apply orb_false_iff. split.
  - apply Z.ltb_ge. exact Hsec.
  - rewrite Z.geb_leb. apply Z.leb_gt. exact Hnsec.
Qed.

(** [pthread_timedjoin_np], recycling, the thread is no zombie when the
    sleep ends. *)
Lemma pthread_timedjoin_np_timeout pthread_id retval abstime thread
  (w : World) :
  isNative w = false ->
  recycle_threads (shared_config w) = true ->
  0 <= tv_sec abstime -> tv_nsec abstime < 1000000000 ->
  getThread pthread_id (registry w) = Some thread ->
  detached (thread_at (registry w) thread) = false ->
  state (thread_at (native_nanosleep abstime (registry w)) thread)
  <> ST_ZOMBIE ->
  pthread_timedjoin_np pthread_id retval abstime w =
  (ETIMEDOUT, None, timed_out abstime w).
Proof.
  intros Hnative Hrecycle Hsec Hnsec Hlookup Hjoinable Hstate.
  unfold pthread_timedjoin_np. rewrite Hnative.
  rewrite (valid_timeout abstime Hsec Hnsec).
  cbn [registry on_sync debuglog emit shared_config].
  rewrite Hlookup, Hjoinable, Hrecycle.
  cbn [registry on_registry with_registry on_sync debuglog emit].
  rewrite (not_zombie _ Hstate). reflexivity.
Qed.

(** [pthread_join], recycling, on a known thread that is not detached: it
    polls until the thread is a zombie, detaches it and returns 0. *)
Lemma pthread_join_recycling fuel pthread_id thread_return thread
  (w : World) :
  isNative w = false ->
  recycle_threads (shared_config w) = true ->
  getThread pthread_id (registry w) = Some thread ->
  detached (thread_at (registry w) thread) = false ->
  pthread_join fuel pthread_id thread_return w =
  match wait_for_zombie fuel thread (registry w) with
  | Some r =>
      Some (0, None,
            on_sync wrapperExecutionLockUnlock
              (on_registry (threadDetach pthread_id)
                 (with_registry r (entered "Joining thread " w))))
  | None => None
  end.
Proof.
  intros Hnative Hrecycle Hlookup Hjoinable.
  unfold pthread_join. rewrite Hnative.
  cbn [registry on_sync debuglog emit shared_config].
  rewrite Hlookup, Hjoinable, Hrecycle.
  destruct (wait_for_zombie fuel thread (registry w)); reflexivity.
Qed.

(** C2.  With recycling, [pthread_timedjoin_np] on a known thread that is
    not detached and is no zombie when the timeout has passed returns
    [ETIMEDOUT] and stores nothing; the registry it leaves is the one the
    sleep left, so the call itself neither detaches nor removes the thread;
    and where the sleep left the thread known and not detached, a
    [pthread_join] of the same identity afterwards is never refused: it
    waits for the thread to become a zombie and then returns 0. *)
Theorem timedjoin_timeout_keeps_joinable pthread_id retval abstime thread
  (w : World) :
  isNative w = false ->
  recycle_threads (shared_config w) = true ->
  0 <= tv_sec abstime -> tv_nsec abstime < 1000000000 ->
  getThread pthread_id (registry w) = Some thread ->
  detached (thread_at (registry w) thread) = false ->
  state (thread_at (native_nanosleep abstime (registry w)) thread)
  <> ST_ZOMBIE ->
  pthread_timedjoin_np pthread_id retval abstime w
  = (ETIMEDOUT, None, timed_out abstime w)
  /\ registry (timed_out abstime w) = native_nanosleep abstime (registry w)
  /\ (getThread pthread_id (native_nanosleep abstime (registry w))
      = Some thread ->
      detached (thread_at (native_nanosleep abstime (registry w)) thread)
      = false ->
      forall fuel thread_return,
        (forall ret out w',
           pthread_join fuel pthread_id thread_return (timed_out abstime w)
           = Some (ret, out, w') -> ret = 0)
        /\ (forall r,
              wait_for_zombie fuel thread
                (native_nanosleep abstime (registry w)) = Some r ->
              exists w',
                pthread_join fuel pthread_id thread_return
                  (timed_out abstime w) = Some (0, None, w')
                /\ registry w' = threadDetach pthread_id r)).
Proof.
  intros Hnative Hrecycle Hsec Hnsec Hlookup Hjoinable Hstate.
  split; [| split].
  - apply pthread_timedjoin_np_timeout with (thread := thread); assumption.
  - reflexivity.
  - intros Hlookup' Hjoinable' fuel thread_return.
    assert (Hjoin := pthread_join_recycling fuel pthread_id thread_return
                       thread (timed_out abstime w) Hnative Hrecycle
                       Hlookup' Hjoinable').
    cbn [timed_out registry on_sync on_registry with_registry debuglog emit]
      in Hjoin.
    rewrite registry_entered in Hjoin.
    split.
    + intros ret out w' Hreturned. rewrite Hjoin in Hreturned.
      destruct (wait_for_zombie fuel thread
                  (native_nanosleep abstime (registry w)));
        [| discriminate Hreturned].
      injection Hreturned as Hret _ _. symmetry. exact Hret.
    + intros r Hzombie. rewrite Hjoin, Hzombie.
      eexists. split; reflexivity.
Qed.

(** [pthread_tryjoin_np], recycling, on a zombie: the return value is
    stored, the thread is detached, success is logged, and the code
    returned is [EBUSY]. *)
Lemma pthread_tryjoin_np_zombie pthread_id retval thread (w : World) :
  isNative w = false ->
  recycle_threads (shared_config w) = true ->
  getThread pthread_id (registry w) = Some thread ->
  detached (thread_at (registry w) thread) = false ->
  state (thread_at (registry w) thread) = ST_ZOMBIE ->
  pthread_tryjoin_np pthread_id retval w =
  (EBUSY,
   store_through retval (Pthread.retval (thread_at (registry w) thread)),
   on_sync wrapperExecutionLockUnlock
     (debuglog "Joining thread successfully."
        (on_registry (threadDetach pthread_id)
           (entered "Try to join thread " w)))).
Proof.
  intros Hnative Hrecycle Hlookup Hjoinable Hstate.
  unfold pthread_tryjoin_np. rewrite Hnative.
  cbn [registry on_sync debuglog emit shared_config].
  rewrite Hlookup, Hjoinable, Hrecycle, (is_zombie _ Hstate). reflexivity.
Qed.

(** [pthread_timedjoin_np], recycling, on a thread that is a zombie when
    the sleep ends: as above, and the code returned is [ETIMEDOUT]. *)
Lemma pthread_timedjoin_np_zombie pthread_id retval abstime thread
  (w : World) :
  isNative w = false ->
  recycle_threads (shared_config w) = true ->
  0 <= tv_sec abstime -> tv_nsec abstime < 1000000000 ->
  getThread pthread_id (registry w) = Some thread ->
  detached (thread_at (registry w) thread) = false ->
  state (thread_at (native_nanosleep abstime (registry w)) thread)
  = ST_ZOMBIE ->
  pthread_timedjoin_np pthread_id retval abstime w =
  (ETIMEDOUT,
   store_through retval
     (Pthread.retval
        (thread_at (native_nanosleep abstime (registry w)) thread)),
   on_sync wrapperExecutionLockUnlock
     (debuglog "Joining thread successfully."
        (on_registry (threadDetach pthread_id)
           (on_registry (native_nanosleep abstime)
              (entered "Try to join thread in " w))))).
Proof.
  intros Hnative Hrecycle Hsec Hnsec Hlookup Hjoinable Hstate.
  unfold pthread_timedjoin_np. rewrite Hnative.
  rewrite (valid_timeout abstime Hsec Hnsec).
  cbn [registry on_sync debuglog emit shared_config].
  rewrite Hlookup, Hjoinable, Hrecycle.
  cbn [registry on_registry with_registry on_sync debuglog emit].
  rewrite (is_zombie _ Hstate). reflexivity.
Qed.

(** In non-native mode [pthread_tryjoin_np] never returns 0. *)
Lemma pthread_tryjoin_np_never_succeeds pthread_id retval (w : World) :
  isNative w = false ->
  fst (fst (pthread_tryjoin_np pthread_id retval w)) <> 0.
Proof.
  intro Hnative. unfold pthread_tryjoin_np. rewrite Hnative.
  destruct (getThread pthread_id _) as [thread |]; [| discriminate].
  destruct (detached _); [discriminate |].
  destruct (recycle_threads _).
  - destruct (ThreadState_eqb _ _); discriminate.
  - destruct (orig_pthread_tryjoin_np _ _) as [[ret v] r].
    destruct (ret =? 0); discriminate.
Qed.


(** *** [pthread_create] *)

(** C7.  [pthread_create] takes a logical thread from the registry.  When
    it is a recycled one, the parked thread is notified, no OS thread is
    created and the call returns 0 with the identity of the recycled
    thread.  Otherwise the real [pthread_create] is called once, with
    [pthread_start] as the entry point and the logical thread as its
    argument, and its return code is the wrapper's: on 0 the identity it
    produced is stored, on any other code the count of unregistered threads
    is taken back and the logical thread is handed to [threadIsDead].  So
    the wrapper fails only when the OS call fails. *)
Theorem pthread_create_outcomes attr start_routine arg return_address
  (w : World) thread r1 isRecycled r2 :
  getNewThread (registry w) = (thread, r1) ->
  initThreadFromParent thread start_routine arg return_address r1
  = (isRecycled, r2) ->
  exists ret tid_p w' events,
    pthread_create attr start_routine arg return_address w = (ret, tid_p, w')
    /\ trace w' = trace w ++ events
    /\ (isRecycled = true ->
        ret = 0
        /\ tid_p
           = Some (pthread_id
                     (thread_at
                        (store_detached thread (wants_detached attr) r2)
                        thread))
        /\ registry w' = store_detached thread (wants_detached attr) r2
        /\ sync w'
           = wrapperExecutionLockUnlock
               (incrementUninitializedThreadCount
                  (wrapperExecutionLockLock (sync w)))
        /\ In (EvNotifyAll thread) events
        /\ (forall entry th code,
              ~ In (EvOrigPthreadCreate entry th code) events))
    /\ (isRecycled = false ->
        exists new_id r4,
          orig_pthread_create thread
            (store_detached thread (wants_detached attr) r2)
          = (ret, new_id, r4)
          /\ (forall entry th code,
                In (EvOrigPthreadCreate entry th code) events ->
                entry = "pthread_start"%string /\ th = thread /\ code = ret)
          /\ In (EvOrigPthreadCreate "pthread_start" thread ret) events
          /\ ~ In (EvNotifyAll thread) events
          /\ (ret = 0 ->
              tid_p = Some new_id
              /\ registry w' = r4
              /\ sync w'
                 = wrapperExecutionLockUnlock
                     (incrementUninitializedThreadCount
                        (wrapperExecutionLockLock (sync w))))
          /\ (ret <> 0 ->
              tid_p = None
              /\ registry w' = threadIsDead thread r4
              /\ sync w'
                 = wrapperExecutionLockUnlock
                     (decrementUninitializedThreadCount
                        (incrementUninitializedThreadCount
                           (wrapperExecutionLockLock (sync w))))))
    /\ (ret <> 0 -> isRecycled = false).
Proof.
  intros Hnew Hinit.
  unfold pthread_create.
  cbn [registry on_sync debuglog emit]. rewrite Hnew, Hinit.
  remember (attr_log attr) as logged eqn:Hlogged.
  destruct isRecycled.
  - exists 0. eexists. eexists.
    exists ([EvDebuglog "Thread is created with routine "] ++ logged
            ++ [EvDebuglog "Recycling thread "; EvNotifyAll thread]).
    split; [reflexivity |].
    split; [destruct attr; subst logged; cbn; rewrite <- ?app_assoc;
            reflexivity |].
    split; [| split; [intro Habsurd; discriminate Habsurd
                     | intro Hret; exfalso; apply Hret; reflexivity]].
    intros _. repeat split; try (destruct attr; reflexivity).
    + apply in_or_app. right. apply in_or_app. right. cbn. tauto.
    + intros entry th code Hin.
      destruct attr; subst logged; cbn in Hin;
        repeat (destruct Hin as [Hin | Hin]; [discriminate Hin |]);
        exact Hin.
  - assert (Hregistry : forall x : World,
              registry match attr with
                       | Some _ =>
                           debuglog "Default state is "
                             (debuglog "Detached state is " x)
                       | None => x
                       end = registry x).
    { intro x. destruct attr; reflexivity. }
    assert (Htrace : forall x : World,
              trace match attr with
                    | Some _ =>
                        debuglog "Default state is "
                          (debuglog "Detached state is " x)
                    | None => x
                    end = trace x ++ logged).
    { intro x. destruct attr; subst logged; cbn.
      - rewrite <- app_assoc. reflexivity.
      - rewrite app_nil_r. reflexivity. }
    assert (Hsync : forall x : World,
              sync match attr with
                   | Some _ =>
                       debuglog "Default state is "
                         (debuglog "Detached state is " x)
                   | None => x
                   end = sync x).
    { intro x. destruct attr; reflexivity. }
    assert (Hdetach :
      (match attr with Some d => d | None => PTHREAD_CREATE_JOINABLE end
       =? PTHREAD_CREATE_DETACHED) = wants_detached attr).
    { destruct attr; reflexivity. }
    cbn [registry on_registry with_registry].
    rewrite Hregistry, Hdetach. cbn [registry with_registry].
    destruct (orig_pthread_create thread
                (store_detached thread (wants_detached attr) r2))
      as [[ret new_id] r4] eqn:Hos.
    exists ret, (if ret =? 0 then Some new_id else None).
    eexists.
    exists ([EvDebuglog "Thread is created with routine "] ++ logged
            ++ [EvOrigPthreadCreate "pthread_start" thread ret]).
    split; [reflexivity |].
    split.
    { destruct (ret =? 0); cbn [trace on_sync on_registry with_registry emit
                                 negb];
        rewrite Htrace; cbn; rewrite <- ?app_assoc; reflexivity. }
    split; [intro Habsurd; discriminate Habsurd |].
    split; [| intros _; reflexivity].
    intros _. exists new_id, r4. split; [reflexivity |].
    split; [| split; [| split; [| split]]].
    + intros entry th code Hin.
      destruct attr; subst logged; cbn in Hin;
        repeat (destruct Hin as [Hin | Hin];
                [first [discriminate Hin
                       | injection Hin as <- <- <-; repeat split] |]);
        destruct Hin.
    + apply in_or_app. right. apply in_or_app. right. cbn. tauto.
    + intro Hin. destruct attr; subst logged; cbn in Hin;
        repeat (destruct Hin as [Hin | Hin]; [discriminate Hin |]);
        exact Hin.
    + intro Hret. rewrite Hret.
      cbn [Z.eqb negb registry sync on_sync on_registry with_registry emit].
      rewrite Hsync. repeat split.
    + intro Hret. apply Z.eqb_neq in Hret. rewrite Hret.
      cbn [negb registry sync on_sync on_registry with_registry emit].
      rewrite Hsync. repeat split.
Qed.

(** *** [pthread_exit] and the trampoline *)

(** C8.  A routine started by the trampoline ends in [pthread_exit v].
    With recycling, [pthread_exit] throws and touches nothing but the log;
    the turn of the trampoline goes on past the routine: the thread-local
    state is erased ([clear_pthread_keys], [__call_tls_dtors],
    [__libc_thread_freeres], [_dl_allocate_tls_init]), the registry is told
    of the exit by [ThreadManager::threadExit], the real [pthread_exit] is
    not called, and unless the thread is told to quit the loop takes its
    next turn.  Without recycling the registry is told of the exit with
    [v], the real [pthread_exit v] is called and the OS thread is gone:
    no cleanup of the trampoline runs. *)
Theorem pthread_exit_in_routine thread v r (w : World) :
  state (thread_at (registry w) thread) = ST_RUNNING ->
  run_routine (start (thread_at (update thread (registry w)) thread))
    (arg (thread_at (update thread (registry w)) thread))
    (update thread (registry w))
  = (CallsPthreadExit v, r) ->
  (recycle_threads (shared_config w) = true ->
   (forall self (x : World),
      shared_config x = shared_config w ->
      pthread_exit self v x
      = ThrowsThreadExitException (debuglog "Thread has exited." x))
   /\ exists w',
        pthread_start_turn thread w = TurnDone w'
        /\ registry w' = threadExit thread None (setCurrentThread thread r)
        /\ trace w'
           = trace w
             ++ [EvDebuglog "Beginning of thread code ";
                 EvDebuglog "Thread has exited."]
             ++ cleanup_events (pthread_id (thread_at r thread))
        /\ shared_config w' = shared_config w
        /\ (quit (thread_at (registry w') thread) = false ->
            forall fuel,
              pthread_start_loop (S fuel) thread w
              = pthread_start_loop fuel thread w'))
  /\ (recycle_threads (shared_config w) = false ->
      (forall self (x : World),
         shared_config x = shared_config w ->
         pthread_exit self v x
         = OsThreadExits
             (emit (EvOrigPthreadExit v)
                (on_registry (threadExit self (Some v))
                   (debuglog "Thread has exited." x))))
      /\ exists w',
           pthread_start_turn thread w = TurnThreadGone w'
           /\ registry w' = threadExit thread (Some v) r
           /\ trace w'
              = trace w
                ++ [EvDebuglog "Beginning of thread code ";
                    EvDebuglog "Thread has exited.";
                    EvOrigPthreadExit v]
           /\ forall fuel,
                pthread_start_loop (S fuel) thread w = StartThreadGone w').
Proof.
  intros Hrunning Hroutine. split; intro Hrecycle; split.
  - intros self x Hconfig. unfold pthread_exit.
    cbn [shared_config debuglog emit]. rewrite Hconfig, Hrecycle.
    reflexivity.
  - assert (Hturn : exists w',
              pthread_start_turn thread w = TurnDone w'
              /\ registry w'
                 = threadExit thread None (setCurrentThread thread r)
              /\ trace w'
                 = trace w
                   ++ [EvDebuglog "Beginning of thread code ";
                       EvDebuglog "Thread has exited."]
                   ++ cleanup_events (pthread_id (thread_at r thread))
              /\ shared_config w' = shared_config w).
    { unfold pthread_start_turn. rewrite Hrunning.
      cbn [ThreadState_eqb registry on_registry with_registry on_sync
           debuglog emit].
      rewrite Hroutine. unfold pthread_exit.
      cbn [shared_config with_registry on_registry on_sync debuglog emit].
      rewrite Hrecycle.
      eexists. split; [reflexivity |]. split; [reflexivity |].
      split; [| reflexivity].
      cbn. rewrite <- !app_assoc. reflexivity. }
    destruct Hturn as (w' & Hturn & Hregistry & Htrace & Hconfig).
    exists w'. repeat split; try assumption.
    intros Hquit fuel. cbn [pthread_start_loop]. rewrite Hturn, Hquit, Hconfig,
      Hrecycle. reflexivity.
  - intros self x Hconfig. unfold pthread_exit.
    cbn [shared_config debuglog emit]. rewrite Hconfig, Hrecycle.
    reflexivity.
  - assert (Hturn : exists w',
              pthread_start_turn thread w = TurnThreadGone w'
              /\ registry w' = threadExit thread (Some v) r
              /\ trace w'
                 = trace w
                   ++ [EvDebuglog "Beginning of thread code ";
                       EvDebuglog "Thread has exited.";
                       EvOrigPthreadExit v]).
    { unfold pthread_start_turn. rewrite Hrunning.
      cbn [ThreadState_eqb registry on_registry with_registry on_sync
           debuglog emit].
      rewrite Hroutine. unfold pthread_exit.
      cbn [shared_config with_registry on_registry on_sync debuglog emit].
      rewrite Hrecycle.
      eexists. split; [reflexivity |]. split; [reflexivity |].
      cbn. rewrite <- !app_assoc. reflexivity. }
    destruct Hturn as (w' & Hturn & Hregistry & Htrace).
    exists w'. repeat split; try assumption.
    intro fuel. cbn [pthread_start_loop]. rewrite Hturn. reflexivity.
Qed.



(** *** What else the joins do *)

(** The loop of [pthread_join] on a thread that is a zombie after [sleeps]
    sleeps of a millisecond and not before. *)
Lemma wait_for_zombie_sleeps thread sleeps : forall fuel (r : Registry),
  (forall n, (n < sleeps)%nat ->
     state (thread_at (after_sleeps n r) thread) <> ST_ZOMBIE) ->
  state (thread_at (after_sleeps sleeps r) thread) = ST_ZOMBIE ->
  wait_for_zombie fuel thread r
  = if (sleeps <=? fuel)%nat then Some (after_sleeps sleeps r) else None.
Proof.
  induction sleeps as [| sleeps IH]; intros fuel r Hbefore Hthen.
  - cbn [after_sleeps] in Hthen.
    destruct fuel; cbn [wait_for_zombie]; rewrite (is_zombie _ Hthen);
      reflexivity.
  - assert (Hnow : state (thread_at r thread) <> ST_ZOMBIE).
    { apply (Hbefore 0%nat). lia. }
    destruct fuel as [| fuel]; cbn [wait_for_zombie];
      rewrite (not_zombie _ Hnow); [reflexivity |].
    change (S sleeps <=? S fuel)%nat with (sleeps <=? fuel)%nat.
    apply (IH fuel (native_nanosleep mssleep r)).
    + intros n Hn. apply (Hbefore (S n)). lia.
    + exact Hthen.
Qed.

(** X1.  With recycling, [pthread_join] on a known thread that is not
    detached tests the state of the thread and sleeps one millisecond
    ([nanosleep] of 0 s and 1000000 ns) after every test that does not find
    [ST_ZOMBIE].  Where the thread is a zombie after [sleeps] such sleeps
    and not before, the call makes exactly these sleeps, hands the identity
    to [ThreadManager::threadDetach] on the registry they left, releases the
    lock and returns 0, without storing anything through [thread_return];
    it has not returned after fewer sleeps. *)
Theorem join_waits_for_zombie sleeps fuel pthread_id thread_return thread
  (w : World) :
  isNative w = false ->
  recycle_threads (shared_config w) = true ->
  getThread pthread_id (registry w) = Some thread ->
  detached (thread_at (registry w) thread) = false ->
  (forall n, (n < sleeps)%nat ->
     state (thread_at (after_sleeps n (registry w)) thread) <> ST_ZOMBIE) ->
  state (thread_at (after_sleeps sleeps (registry w)) thread) = ST_ZOMBIE ->
  ((sleeps <= fuel)%nat ->
   pthread_join fuel pthread_id thread_return w
   = Some (0, None,
           on_sync wrapperExecutionLockUnlock
             (on_registry (threadDetach pthread_id)
                (with_registry (after_sleeps sleeps (registry w))
                   (entered "Joining thread " w)))))
  /\ ((fuel < sleeps)%nat ->
      pthread_join fuel pthread_id thread_return w = None).
Proof.
  intros Hnative Hrecycle Hlookup Hjoinable Hbefore Hthen.
  rewrite (pthread_join_recycling fuel pthread_id thread_return thread w
             Hnative Hrecycle Hlookup Hjoinable).
  rewrite (wait_for_zombie_sleeps thread sleeps fuel _ Hbefore Hthen).
  split; intro Hfuel.
  - destruct (Nat.leb_spec sleeps fuel); [reflexivity | lia].
  - destruct (Nat.leb_spec sleeps fuel); [lia | reflexivity].
Qed.

(** [pthread_tryjoin_np], recycling, on a thread that is no zombie. *)
Lemma pthread_tryjoin_np_busy pthread_id retval thread (w : World) :
  isNative w = false ->
  recycle_threads (shared_config w) = true ->
  getThread pthread_id (registry w) = Some thread ->
  detached (thread_at (registry w) thread) = false ->
  state (thread_at (registry w) thread) <> ST_ZOMBIE ->
  pthread_tryjoin_np pthread_id retval w =
  (EBUSY, None,
   on_sync wrapperExecutionLockUnlock
     (debuglog "Thread has not yet terminated."
        (entered "Try to join thread " w))).
Proof.
  intros Hnative Hrecycle Hlookup Hjoinable Hstate.
  unfold pthread_tryjoin_np. rewrite Hnative.
  cbn [registry on_sync debuglog emit shared_config].
  rewrite Hlookup, Hjoinable, Hrecycle, (not_zombie _ Hstate). reflexivity.
Qed.

(** X2.  In non-native mode [pthread_tryjoin_np] and
    [pthread_timedjoin_np] (with a valid timeout) return [ESRCH] for an
    identity the registry does not know and [EINVAL] for a detached thread,
    store nothing and leave the registry as it was; and with recycling
    [pthread_tryjoin_np] on a thread that is not detached and is no zombie
    returns [EBUSY], stores nothing and leaves the registry as it was. *)
Theorem tryjoin_timedjoin_refusals pthread_id retval abstime (w : World) :
  isNative w = false ->
  0 <= tv_sec abstime -> tv_nsec abstime < 1000000000 ->
  (getThread pthread_id (registry w) = None ->
   (exists w',
      pthread_tryjoin_np pthread_id retval w = (ESRCH, None, w')
      /\ registry w' = registry w)
   /\ (exists w',
         pthread_timedjoin_np pthread_id retval abstime w = (ESRCH, None, w')
         /\ registry w' = registry w))
  /\ (forall thread,
        getThread pthread_id (registry w) = Some thread ->
        (detached (thread_at (registry w) thread) = true ->
         (exists w',
            pthread_tryjoin_np pthread_id retval w = (EINVAL, None, w')
            /\ registry w' = registry w)
         /\ (exists w',
               pthread_timedjoin_np pthread_id retval abstime w
               = (EINVAL, None, w')
               /\ registry w' = registry w))
        /\ (detached (thread_at (registry w) thread) = false ->
            recycle_threads (shared_config w) = true ->
            state (thread_at (registry w) thread) <> ST_ZOMBIE ->
            exists w',
              pthread_tryjoin_np pthread_id retval w = (EBUSY, None, w')
              /\ registry w' = registry w)).
Proof.
  intros Hnative Hsec Hnsec. split.
  - intro Hlookup. split; eexists; split.
    + unfold pthread_tryjoin_np. rewrite Hnative.
      cbn [registry on_sync debuglog emit]. rewrite Hlookup. reflexivity.
    + reflexivity.
    + unfold pthread_timedjoin_np.
      rewrite Hnative, (valid_timeout abstime Hsec Hnsec).
      cbn [registry on_sync debuglog emit]. rewrite Hlookup. reflexivity.
    + reflexivity.
  - intros thread Hlookup. split.
    + intro Hdetached. split; eexists; split.
      * unfold pthread_tryjoin_np. rewrite Hnative.
        cbn [registry on_sync debuglog emit].
        rewrite Hlookup, Hdetached. reflexivity.
      * reflexivity.
      * unfold pthread_timedjoin_np.
        rewrite Hnative, (valid_timeout abstime Hsec Hnsec).
        cbn [registry on_sync debuglog emit].
        rewrite Hlookup, Hdetached. reflexivity.
      * reflexivity.
    + intros Hjoinable Hrecycle Hstate. eexists. split.
      * apply pthread_tryjoin_np_busy with (thread := thread); assumption.
      * reflexivity.
Qed.


End PthreadProperties.

(** *** The wrappers on the reference worlds *)

Section PthreadWitnesses.

Import Pthread Reference.

(** The theorem of C6 at the threads 99 (unknown) and 12 (detached). *)
Lemma join_detach_failures_witness :
  (exists w',
     pthread_join 0 99 true (world true) = Some (ESRCH, None, w')
     /\ registry w' = threads)
  /\ (exists w',
        pthread_detach 12 (world true) = (EINVAL, w')
        /\ registry w' = threads).
Proof.
  split.
  - destruct (join_detach_failures 0%nat 99 true (world true) eq_refl)
      as [Hunknown _].
    destruct (Hunknown eq_refl) as [Hjoin _]. exact Hjoin.
  - destruct (join_detach_failures 0%nat 12 true (world true) eq_refl)
      as [_ Hdetached].
    destruct (Hdetached 1%nat eq_refl eq_refl) as [_ Hdetach]. exact Hdetach.
Defined.

(** The theorem of C10 at a timeout of -1 s, for a thread that runs. *)
Lemma timedjoin_invalid_timeout_witness :
  fst (pthread_timedjoin_np 11 true {| tv_sec := -1; tv_nsec := 0 |}
         (world true)) = (EINVAL, None)
  /\ registry
       (snd (pthread_timedjoin_np 11 true {| tv_sec := -1; tv_nsec := 0 |}
               (world true)))
     = threads.
Proof.
  destruct (timedjoin_invalid_timeout 11 true {| tv_sec := -1; tv_nsec := 0 |}
              (world true) eq_refl) as [Hcode Hregistry].
  - left. reflexivity.
  - split.
    + rewrite Hcode. reflexivity.
    + exact Hregistry.
Defined.

(** The theorem of C2 at the running thread 11. *)
Lemma timedjoin_timeout_keeps_joinable_witness :
  pthread_timedjoin_np 11 true short_time (world true)
  = (ETIMEDOUT, None, timed_out short_time (world true))
  /\ registry (timed_out short_time (world true)) = threads
  /\ forall ret out w',
       pthread_join 3 11 true (timed_out short_time (world true))
       = Some (ret, out, w') -> ret = 0.
Proof.
  assert (Hrunning : state (thread_at (native_nanosleep short_time
                                         (registry (world true))) 0%nat)
                     <> ST_ZOMBIE).
  { cbn. discriminate. }
  assert (Hsec : 0 <= tv_sec short_time) by (cbn; lia).
  assert (Hnsec : tv_nsec short_time < 1000000000) by (cbn; lia).
  assert (Hlookup : getThread 11 (registry (world true)) = Some 0%nat)
    by reflexivity.
  assert (Hjoinable : detached (thread_at (registry (world true)) 0%nat)
                      = false) by reflexivity.
  destruct (timedjoin_timeout_keeps_joinable 11 true short_time 0%nat
              (world true) eq_refl eq_refl Hsec Hnsec Hlookup Hjoinable
              Hrunning) as (Hcode & Hregistry & Hjoin).
  split; [exact Hcode |]. split; [exact Hregistry |].
  destruct (Hjoin eq_refl eq_refl 3%nat true) as [Hpermitted _].
  exact Hpermitted.
Defined.

(** The theorem of C7 where the OS refuses the thread. *)
Lemma pthread_create_outcomes_witness :
  exists tid_p w',
    pthread_create None 0 5 0 (world true) = (EAGAIN, tid_p, w')
    /\ state (thread_at (registry w') 4%nat) = ST_QUIT.
Proof.
  assert (Hnew : getNewThread (registry (world true))
                 = (4%nat, threads ++ [blank])) by reflexivity.
  assert (Hinit : initThreadFromParent 4%nat 0 5 0 (threads ++ [blank])
                  = (false,
                     change 4%nat (with_routine 0 5) (threads ++ [blank])))
    by reflexivity.
  destruct (pthread_create_outcomes None 0 5 0 (world true)
              4%nat (threads ++ [blank]) false
              (change 4%nat (with_routine 0 5) (threads ++ [blank]))
              Hnew Hinit)
    as (ret & tid_p & w' & events & Hcall & _ & _ & Hfresh & _).
  destruct (Hfresh eq_refl) as (new_id & r4 & Hos & _ & _ & _ & _ & Hfailed).
  cbn in Hos. injection Hos as Hret _ Hr4. subst ret.
  exists tid_p, w'. split; [exact Hcall |].
  destruct Hfailed as (_ & Hregistry & _); [discriminate |].
  rewrite Hregistry, <- Hr4. reflexivity.
Defined.

(** The theorem of C8 at thread 14, whose routine ends in
    [pthread_exit]. *)
Lemma pthread_exit_in_routine_witness :
  (exists w',
     pthread_start_turn 3%nat (world true) = TurnDone w'
     /\ state (thread_at (registry w') 3%nat) = ST_ZOMBIE)
  /\ (exists w',
        pthread_start_turn 3%nat (world false) = TurnThreadGone w'
        /\ retval (thread_at (registry w') 3%nat) = 5).
Proof.
  split.
  - assert (Hrunning : state (thread_at (registry (world true)) 3%nat)
                       = ST_RUNNING) by reflexivity.
    assert (Hroutine :
      run_routine
        (start (thread_at (update 3%nat (registry (world true))) 3%nat))
        (arg (thread_at (update 3%nat (registry (world true))) 3%nat))
        (update 3%nat (registry (world true)))
      = (CallsPthreadExit 5, threads)) by reflexivity.
    destruct (pthread_exit_in_routine 3%nat 5 threads (world true)
                Hrunning Hroutine) as [Hrecycling _].
    destruct (Hrecycling eq_refl) as (_ & w' & Hturn & Hregistry & _).
    exists w'. split; [exact Hturn |]. rewrite Hregistry. reflexivity.
  - assert (Hrunning : state (thread_at (registry (world false)) 3%nat)
                       = ST_RUNNING) by reflexivity.
    assert (Hroutine :
      run_routine
        (start (thread_at (update 3%nat (registry (world false))) 3%nat))
        (arg (thread_at (update 3%nat (registry (world false))) 3%nat))
        (update 3%nat (registry (world false)))
      = (CallsPthreadExit 5, threads)) by reflexivity.
    destruct (pthread_exit_in_routine 3%nat 5 threads (world false)
                Hrunning Hroutine) as [_ Hplain].
    destruct (Hplain eq_refl) as (_ & w' & Hturn & Hregistry & _).
    exists w'. split; [exact Hturn |]. rewrite Hregistry. reflexivity.
Defined.

(** C1, where the code departs from it.  Thread 13 is known, not detached
    and has finished with the return value 77; recycling is enabled.
    [pthread_tryjoin_np] stores 77, detaches the thread, logs the success
    and returns [EBUSY]; [pthread_timedjoin_np] does the same and returns
    [ETIMEDOUT].  Neither returns 0. *)
Lemma tryjoin_timedjoin_zombie_codes :
  (exists w',
     pthread_tryjoin_np 13 true (world true) = (EBUSY, Some 77, w')
     /\ last (trace w') (EvDebuglog "")
        = EvDebuglog "Joining thread successfully."
     /\ detached (thread_at (registry w') 2%nat) = true)
  /\ (exists w',
        pthread_timedjoin_np 13 true short_time (world true)
        = (ETIMEDOUT, Some 77, w')
        /\ last (trace w') (EvDebuglog "")
           = EvDebuglog "Joining thread successfully."
        /\ detached (thread_at (registry w') 2%nat) = true).
Proof.
  split; eexists; split; try reflexivity; split; reflexivity.
Qed.


(** The theorem of X1 on the busy system, at the thread 11 whose routine
    needs five more milliseconds: the join returns after five sleeps, with
    the thread detached, and has not returned after four. *)
Lemma join_waits_for_zombie_witness :
  (exists w',
     pthread_join (NA := busy) 5 11 true (world true) = Some (0, None, w')
     /\ registry w'
        = threadDetach 11 (after_sleeps (NA := busy) 5 threads)
     /\ arg (thread_at (registry w') 0%nat) = 1
     /\ detached (thread_at (registry w') 0%nat) = true)
  /\ pthread_join (NA := busy) 4 11 true (world true) = None.
Proof.
  assert (Hlookup : getThread 11 (registry (world true)) = Some 0%nat)
    by reflexivity.
  assert (Hjoinable : detached (thread_at (registry (world true)) 0%nat)
                      = false) by reflexivity.
  assert (Hbefore : forall n, (n < 5)%nat ->
            state (thread_at
                     (after_sleeps (NA := busy) n (registry (world true)))
                     0%nat)
            <> ST_ZOMBIE).
  { intros n Hn.
    do 5 (destruct n as [| n]; [cbn; discriminate |]). lia. }
  assert (Hthen : state (thread_at
                           (after_sleeps (NA := busy) 5
                              (registry (world true)))
                           0%nat)
                  = ST_ZOMBIE) by reflexivity.
  split.
  - destruct (join_waits_for_zombie (NA := busy) 5%nat 5%nat 11 true 0%nat
                (world true) eq_refl eq_refl Hlookup Hjoinable Hbefore Hthen)
      as [Hjoin _].
    eexists. split; [apply Hjoin; lia |].
    split; [reflexivity |]. split; reflexivity.
  - destruct (join_waits_for_zombie (NA := busy) 5%nat 4%nat 11 true 0%nat
                (world true) eq_refl eq_refl Hlookup Hjoinable Hbefore Hthen)
      as [_ Hnone].
    apply Hnone. lia.
Defined.

(** The theorem of X2 at the running thread 11. *)
Lemma tryjoin_timedjoin_refusals_witness :
  exists w',
    pthread_tryjoin_np 11 true (world true) = (EBUSY, None, w')
    /\ registry w' = threads.
Proof.
  assert (Hsec : 0 <= tv_sec short_time) by (cbn; lia).
  assert (Hnsec : tv_nsec short_time < 1000000000) by (cbn; lia).
  destruct (tryjoin_timedjoin_refusals 11 true short_time (world true)
              eq_refl Hsec Hnsec) as [_ Hknown].
  assert (Hlookup : getThread 11 (registry (world true)) = Some 0%nat)
    by reflexivity.
  destruct (Hknown 0%nat Hlookup) as [_ Hbusy].
  apply Hbusy; [reflexivity | reflexivity | cbn; discriminate].
Defined.


End PthreadWitnesses.

(** ** Properties of the frame boundary *)

Section FrameProperties.

Import Frame.

Context {Timer Engine AllInputs : Type}.
Context {FD : FrameDeps Timer Engine AllInputs}.

Abbreviation World := (@Frame.World Timer Engine AllInputs).
Abbreviation M := (@Frame.M Timer Engine AllInputs).

Notation "x <- c1 ;; c2" := (bind c1 (fun x => c2))
  (at level 61, c1 at next level, right associativity).
Notation "e1 ;; e2" := (bind e1 (fun _ => e2))
  (at level 61, right associativity).

(** *** Runs that respect a relation between the worlds *)

Lemma bind_Ok {A B} (m : M A) (k : A -> M B) (w w' : World) (b : B) :
  bind m k w = Ok b w' ->
  exists a w1, m w = Ok a w1 /\ k a w1 = Ok b w'.
Proof.
  unfold bind. destruct (m w) as [a w1 | h]; intro H.
  - exists a, w1. split; [reflexivity | exact H].
  - discriminate H.
Qed.

Create HintDb invariance.

Section Respects.

Context {R : World -> World -> Prop} {HR : Invariance R}.

Lemma respects_ret {A} (a : A) : respects R (ret a).
Proof. intros w a' w' H. injection H as _ <-. apply inv_refl. Qed.

Lemma respects_halt {A} (h : Halt) : respects R (halt (A := A) h).
Proof. intros w a w' H. discriminate H. Qed.

Lemma respects_gets {A} (f : World -> A) : respects R (gets f).
Proof. intros w a w' H. injection H as _ <-. apply inv_refl. Qed.

Lemma respects_bind {A B} (m : M A) (k : A -> M B) :
  respects R m -> (forall a, respects R (k a)) -> respects R (bind m k).
Proof.
  intros Hm Hk w b w' H. apply bind_Ok in H as (a & w1 & H1 & H2).
  apply inv_trans with w1; [exact (Hm w a w1 H1) | exact (Hk a w1 b w' H2)].
Qed.

Lemma respects_when (b : bool) (m : M unit) :
  respects R m -> respects R (when b m).
Proof. intro Hm. destruct b; [exact Hm | apply respects_ret]. Qed.

Lemma respects_modify_globals f : respects R (modify (on_globals f)).
Proof. intros w a w' H. injection H as _ <-. apply inv_globals. Qed.

Lemma respects_modify_statics f :
  (forall s, framecount (f s) = framecount s) ->
  respects R (modify (on_statics f)).
Proof.
  intros Hf w a w' H. injection H as _ <-. apply inv_statics. apply Hf.
Qed.

Lemma respects_modify_outside f :
  (forall o, (List.length (chan_in (f o)) <= List.length (chan_in o))%nat) ->
  respects R (modify (on_outside f)).
Proof.
  intros Hf w a w' H. injection H as _ <-. apply inv_outside. apply Hf.
Qed.

Lemma respects_receiveItem : respects R receiveItem.
Proof.
  intros w a w' H. unfold receiveItem in H.
  destruct (chan_in (outside w)) as [| i rest] eqn:Hin; [discriminate H |].
  injection H as _ <-. apply inv_outside. rewrite Hin. cbn. lia.
Qed.

Lemma respects_detTimer_getTicks : respects R detTimer_getTicks.
Proof.
  intros w a w' H. unfold detTimer_getTicks in H.
  destruct (getTicks (timer (outside w))). injection H as _ <-.
  apply inv_outside. cbn. lia.
Qed.

Lemma respects_clock_gettime : respects R clock_gettime.
Proof.
  intros w a w' H. injection H as _ <-. apply inv_outside. cbn. lia.
Qed.

#[local] Hint Resolve respects_ret respects_halt respects_gets respects_when
  respects_receiveItem respects_detTimer_getTicks respects_clock_gettime
  respects_modify_globals : invariance.

(** One step through the syntax of a computation. *)
Ltac respects_step :=
  lazymatch goal with
  | |- respects _ (bind _ _) => apply respects_bind; [| intro]
  | |- respects _ (when _ _) => apply respects_when
  | |- respects _ (modify (on_globals _)) => apply respects_modify_globals
  | |- respects _ (modify (on_statics _)) =>
      apply respects_modify_statics; intro; reflexivity
  | |- respects _ (modify (on_outside _)) =>
      apply respects_modify_outside; intro; cbn; lia
  | |- respects _ (if ?b then _ else _) => destruct b
  | |- respects _ (match ?x with _ => _ end) => destruct x
  | |- respects _ _ => solve [auto with invariance]
  end.

Ltac respects_all := repeat respects_step.

Lemma respects_emit (e : Event) : respects R (emit e).
Proof. unfold emit. respects_all. Qed.

Lemma respects_send (i : Item) : respects R (send i).
Proof. unfold send. respects_all. Qed.

#[local] Hint Resolve respects_emit respects_send : invariance.

Lemma respects_debuglog msg : respects R (debuglog msg).
Proof. unfold debuglog. respects_all. Qed.

Lemma respects_sendMessage m : respects R (sendMessage m).
Proof. unfold sendMessage. respects_all. Qed.

Lemma respects_sendString s : respects R (sendString s).
Proof. unfold sendString. respects_all. Qed.

Lemma respects_receiveMessage : respects R receiveMessage.
Proof. unfold receiveMessage. respects_all. Qed.

Lemma respects_receiveString : respects R receiveString.
Proof. unfold receiveString. respects_all. Qed.

Lemma respects_receiveInt : respects R receiveInt.
Proof. unfold receiveInt. respects_all. Qed.

Lemma respects_receiveConfig : respects R receiveConfig.
Proof. unfold receiveConfig. respects_all. Qed.

Lemma respects_receiveInputs : respects R receiveInputs.
Proof. unfold receiveInputs. respects_all. Qed.

Lemma respects_config : respects R config.
Proof. unfold config. respects_all. Qed.

#[local] Hint Resolve respects_debuglog respects_sendMessage
  respects_sendString respects_receiveMessage respects_receiveString
  respects_receiveInt respects_receiveConfig respects_receiveInputs
  respects_config : invariance.

Lemma respects_computeFPS : respects R computeFPS.
Proof. unfold computeFPS. respects_all. Qed.

Lemma respects_skipDraw f : respects R (skipDraw f).
Proof. unfold skipDraw. respects_all. Qed.

Lemma respects_pushQuitEvent : respects R pushQuitEvent.
Proof. unfold pushQuitEvent. respects_all. Qed.

Lemma respects_render_hud p : respects R (render_hud p).
Proof. unfold render_hud. respects_all. Qed.

#[local] Hint Resolve respects_computeFPS respects_skipDraw
  respects_pushQuitEvent respects_render_hud : invariance.

Lemma respects_screen_redraw p : respects R (screen_redraw p).
Proof. unfold screen_redraw. respects_all. Qed.

Lemma respects_send_framecount_time : respects R send_framecount_time.
Proof. unfold send_framecount_time. respects_all. Qed.

#[local] Hint Resolve respects_screen_redraw respects_send_framecount_time
  : invariance.

Lemma respects_do_savestate : respects R do_savestate.
Proof. unfold do_savestate. respects_all. Qed.

Lemma respects_do_loadstate : respects R do_loadstate.
Proof. unfold do_loadstate. respects_all. Qed.

Lemma respects_do_stop_encode : respects R do_stop_encode.
Proof. unfold do_stop_encode. respects_all. Qed.

#[local] Hint Resolve respects_do_savestate respects_do_loadstate
  respects_do_stop_encode : invariance.

Lemma respects_receive_loop fuel p : respects R (receive_loop fuel p).
Proof.
  revert p. induction fuel as [| fuel IH]; intro p; cbn [receive_loop].
  - apply respects_halt.
  - respects_step; [auto with invariance |].
    destruct (decode a) as [[] |]; respects_all; apply IH.
Qed.

Lemma respects_receive_messages : respects R receive_messages.
Proof.
  unfold receive_messages. respects_step; [auto with invariance |].
  apply respects_receive_loop.
Qed.

Lemma respects_send_alerts pending : respects R (send_alerts pending).
Proof.
  induction pending as [| alert pending IH]; cbn [send_alerts].
  - apply respects_ret.
  - respects_all.
Qed.

Lemma respects_receive_ramwatches fuel message :
  respects R (receive_ramwatches fuel message).
Proof.
  revert message. induction fuel as [| fuel IH]; intro message;
    cbn [receive_ramwatches].
  - respects_all.
  - destruct (message =? code MSGN_RAMWATCH); respects_all; apply IH.
Qed.

#[local] Hint Resolve respects_receive_messages respects_send_alerts
  respects_receive_ramwatches : invariance.

Lemma respects_ask_backtrack_savestate : respects R ask_backtrack_savestate.
Proof. unfold ask_backtrack_savestate. respects_all. Qed.

#[local] Hint Resolve respects_ask_backtrack_savestate : invariance.

Lemma respects_send_frame_information : respects R send_frame_information.
Proof. unfold send_frame_information. respects_all. Qed.

Lemma respects_dump_audio_video d : respects R (dump_audio_video d).
Proof. unfold dump_audio_video. respects_all. Qed.

Lemma respects_process_inputs_and_events :
  respects R process_inputs_and_events.
Proof. unfold process_inputs_and_events. respects_all. Qed.

Lemma respects_unless_skipping m :
  respects R m -> respects R (unless_skipping m).
Proof. intro Hm. unfold unless_skipping. respects_all. Qed.

#[local] Hint Resolve respects_send_frame_information
  respects_dump_audio_video respects_process_inputs_and_events
  respects_unless_skipping : invariance.

Lemma respects_frame_after_messages d r :
  respects R (frame_after_messages d r).
Proof. unfold frame_after_messages. respects_all. Qed.

Lemma respects_frame_from_marker d : respects R (frame_from_marker d).
Proof. unfold frame_from_marker. respects_all. Qed.

#[local] Hint Resolve respects_frame_from_marker : invariance.

(** [frame_until_draw] from the increment of the frame counter on. *)
Lemma respects_frame_until_draw d (w w' : World) :
  frame_until_draw d w = Ok tt w' ->
  exists w1,
    framecount (statics w1) = wrap_ulong (framecount (statics w) + 1)
    /\ R w1 w'.
Proof.
  unfold frame_until_draw. intro H.
  apply bind_Ok in H as (a1 & w1 & H1 & H).
  apply bind_Ok in H as (a2 & w2 & H2 & H).
  injection H1 as _ H1. injection H2 as _ H2. subst w1 w2.
  match type of H with
  | ?m ?x = _ =>
      assert (Hrest : respects R m) by respects_all; exists x
  end.
  split; [reflexivity | exact (Hrest _ _ _ H)].
Qed.

End Respects.

(** *** The frame counter *)

#[local] Instance framecount_invariance :
  Invariance (@same_framecount Timer Engine AllInputs).
Proof.
  split; unfold same_framecount.
  - reflexivity.
  - intros w1 w2 w3 H12 H23. rewrite H23. exact H12.
  - reflexivity.
  - intros f w H. exact H.
  - reflexivity.
Qed.

Lemma frame_until_draw_counts d (w w' : World) :
  frame_until_draw d w = Ok tt w' ->
  framecount (statics w') = wrap_ulong (framecount (statics w) + 1).
Proof.
  intro H.
  destruct (respects_frame_until_draw (R := same_framecount) d w w' H)
    as (w1 & Hincrement & Hrest).
  unfold same_framecount in Hrest. rewrite Hrest. exact Hincrement.
Qed.

(** One call of [frameBoundary] that returns. *)
Lemma frameBoundary_counts d r (w w' : World) :
  frameBoundary d r w = Ok tt w' ->
  framecount (statics w') = wrap_ulong (framecount (statics w) + 1).
Proof.
  unfold frameBoundary. intro H.
  apply bind_Ok in H as (a1 & w1 & H1 & H).
  apply bind_Ok in H as (a2 & w2 & H2 & H).
  destruct a1.
  rewrite (respects_frame_after_messages (R := same_framecount) d r _ _ _ H).
  rewrite (respects_receive_messages (R := same_framecount) _ _ _ H2).
  exact (frame_until_draw_counts d w w1 H1).
Qed.

Lemma wrap_ulong_range n : 0 <= wrap_ulong n < ULONG_MODULUS.
Proof. unfold wrap_ulong, ULONG_MODULUS. apply Z.mod_pos_bound. lia. Qed.

Lemma frames_count calls (w w' : World) :
  0 <= framecount (statics w) < ULONG_MODULUS ->
  frames calls w = Ok tt w' ->
  framecount (statics w')
  = wrap_ulong (framecount (statics w) + Z.of_nat (List.length calls)).
Proof.
  revert w. induction calls as [| [d r] calls IH]; intros w Hrange H.
  - injection H as <-. unfold wrap_ulong. rewrite Z.add_0_r.
    symmetry. apply Z.mod_small. exact Hrange.
  - cbn [frames] in H. apply bind_Ok in H as (a & w1 & H1 & H).
    destruct a. apply frameBoundary_counts in H1.
    rewrite (IH w1); [| rewrite H1; apply wrap_ulong_range | exact H].
    rewrite H1. unfold wrap_ulong, ULONG_MODULUS.
    rewrite Z.add_mod_idemp_l by lia. f_equal.
    cbn [List.length]. lia.
Qed.

(** C3.  [framecount] is an [unsigned long] that starts at 0 and that
    only [++framecount] in [frameBoundary] writes.  A call of
    [frameBoundary] that returns leaves it exactly one higher, whatever the
    draw flag, [restore_screen], the decision to skip the draw and the
    controller's messages, and n consecutive calls leave it exactly n
    higher, as long as the count stays in the range of the type; every
    state that fewer than 2^64 - 1 calls reach from the initial value 0 is
    in that range.  Without the bound the equations hold modulo 2^64. *)
Theorem framecount_steps_by_one :
  (forall drawFB restore_screen (w w' : World),
     frameBoundary drawFB restore_screen w = Ok tt w' ->
     framecount (statics w') = wrap_ulong (framecount (statics w) + 1)
     /\ (0 <= framecount (statics w) < ULONG_MODULUS - 1 ->
         framecount (statics w') = framecount (statics w) + 1))
  /\ (forall calls (w w' : World),
        0 <= framecount (statics w) < ULONG_MODULUS ->
        frames calls w = Ok tt w' ->
        framecount (statics w')
        = wrap_ulong
            (framecount (statics w) + Z.of_nat (List.length calls))
        /\ (framecount (statics w) + Z.of_nat (List.length calls)
            < ULONG_MODULUS ->
            framecount (statics w')
            = framecount (statics w) + Z.of_nat (List.length calls)))
  /\ (forall calls drawFB restore_screen (w w1 w2 : World),
        framecount (statics w) = 0 ->
        Z.of_nat (List.length calls) < ULONG_MODULUS - 1 ->
        frames calls w = Ok tt w1 ->
        frameBoundary drawFB restore_screen w1 = Ok tt w2 ->
        framecount (statics w1) = Z.of_nat (List.length calls)
        /\ framecount (statics w2) = framecount (statics w1) + 1).
Proof.
  split; [| split].
  - intros d r w w' H. apply frameBoundary_counts in H. split.
    + exact H.
    + intro Hrange. rewrite H. unfold wrap_ulong. apply Z.mod_small. lia.
  - intros calls w w' Hrange H.
    assert (Hcount := frames_count calls w w' Hrange H). split.
    + exact Hcount.
    + intro Hbelow. rewrite Hcount. unfold wrap_ulong.
      apply Z.mod_small. lia.
  - intros calls d r w w1 w2 Hstart Hbelow Hcalls Hcall.
    assert (Hrange : 0 <= framecount (statics w) < ULONG_MODULUS).
    { rewrite Hstart. unfold ULONG_MODULUS. lia. }
    assert (Hcount := frames_count calls w w1 Hrange Hcalls).
    rewrite Hstart, Z.add_0_l in Hcount. unfold wrap_ulong in Hcount.
    rewrite Z.mod_small in Hcount by lia.
    split; [exact Hcount |].
    apply frameBoundary_counts in Hcall. rewrite Hcall.
    unfold wrap_ulong. apply Z.mod_small. lia.
Qed.


(** *** The fuel of the receive loop *)

#[local] Instance channel_invariance :
  Invariance (@channel_not_longer Timer Engine AllInputs).
Proof.
  split; unfold channel_not_longer.
  - intro w. lia.
  - intros w1 w2 w3 H12 H23. lia.
  - intros f w. cbn. lia.
  - intros f w _. cbn. lia.
  - intros f w H. exact H.
Qed.

#[local] Hint Resolve respects_ret respects_halt respects_gets respects_when
  respects_bind respects_modify_globals respects_emit respects_debuglog
  respects_receiveString respects_receiveInt respects_receiveConfig
  respects_receiveInputs respects_pushQuitEvent respects_screen_redraw
  respects_do_savestate respects_do_loadstate respects_do_stop_encode
  channel_invariance : invariance.

Lemma receiveMessage_shortens c (w w' : World) :
  receiveMessage w = Ok c w' ->
  S (List.length (chan_in (outside w'))) = List.length (chan_in (outside w)).
Proof.
  unfold receiveMessage, bind, receiveItem.
  destruct (chan_in (outside w)) as [| i rest]; [discriminate |].
  destruct i; try discriminate. intro H. injection H as _ <-. reflexivity.
Qed.

Lemma bind_same_start {A B} (m : M A) (k1 k2 : A -> M B) (w : World) :
  (forall a w', m w = Ok a w' -> k1 a w' = k2 a w') ->
  bind m k1 w = bind m k2 w.
Proof.
  intro H. unfold bind. destruct (m w) as [a w' | h]; [| reflexivity].
  apply H. reflexivity.
Qed.

Lemma bind_same_prefix {A B} (m : M A) (k1 k2 : A -> M B) (w : World) n :
  respects channel_not_longer m ->
  (List.length (chan_in (outside w)) < n)%nat ->
  (forall a w',
     (List.length (chan_in (outside w')) < n)%nat -> k1 a w' = k2 a w') ->
  bind m k1 w = bind m k2 w.
Proof.
  intros Hm Hn H. apply bind_same_start. intros a w' Hrun. apply H.
  specialize (Hm w a w' Hrun). unfold channel_not_longer in Hm. lia.
Qed.

(** Fuel above the length of the channel is as good as any more. *)
Lemma receive_loop_fuel fuel : forall p (w : World),
  (List.length (chan_in (outside w)) < fuel)%nat ->
  receive_loop fuel p w = receive_loop (S fuel) p w.
Proof.
  induction fuel as [| fuel IH]; intros p w Hfuel; [lia |].
  change (receive_loop (S (S fuel)) p) with
    (bind receiveMessage (fun message =>
       match decode message with
       | Some MSGN_USERQUIT =>
           pushQuitEvent ;;
           modify (on_globals (set_is_exiting true)) ;;
           receive_loop (S fuel) p
       | Some MSGN_CONFIG =>
           c <- receiveConfig ;;
           modify (on_globals (set_shared_config c)) ;;
           receive_loop (S fuel) p
       | Some MSGN_DUMP_FILE =>
           debuglog "Receiving dump filename" ;;
           file <- receiveString ;;
           emit (EvSetDumpfile file) ;;
           debuglog "File " ;;
           options <- receiveString ;;
           emit (EvSetFfmpegOptions options) ;;
           receive_loop (S fuel) p
       | Some MSGN_ALL_INPUTS =>
           a <- receiveInputs ;;
           modify (on_globals (set_ai a)) ;;
           receive_loop (S fuel) p
       | Some MSGN_EXPOSE => screen_redraw p ;; receive_loop (S fuel) p
       | Some MSGN_PREVIEW_INPUTS =>
           a <- receiveInputs ;;
           screen_redraw a ;;
           receive_loop (S fuel) a
       | Some MSGN_SAVESTATE_PATH =>
           path <- receiveString ;;
           emit (EvSetSavestatePath path) ;;
           receive_loop (S fuel) p
       | Some MSGN_SAVESTATE_INDEX =>
           index <- receiveInt ;;
           emit (EvSetSavestateIndex index) ;;
           receive_loop (S fuel) p
       | Some MSGN_SAVESTATE => do_savestate ;; receive_loop (S fuel) p
       | Some MSGN_LOADSTATE => do_loadstate ;; receive_loop (S fuel) p
       | Some MSGN_STOP_ENCODE => do_stop_encode ;; receive_loop (S fuel) p
       | Some MSGN_OSD_MSG =>
           when LIBTAS_ENABLE_HUD
             (text <- receiveString ;;
              emit (EvHudInsertMessage text) ;;
              screen_redraw p) ;;
           receive_loop (S fuel) p
       | Some MSGN_END_FRAMEBOUNDARY => ret tt
       | _ => debuglog "Unknown message received" ;; ret tt
       end)).
  cbn [receive_loop]. apply bind_same_start. intros c w1 Hread.
  apply receiveMessage_shortens in Hread.
  assert (Hleft : (List.length (chan_in (outside w1)) < fuel)%nat) by lia.
  destruct (decode c) as [[] |]; try reflexivity.
  all: repeat (eapply bind_same_prefix;
               [solve [eauto 10 with invariance] | eassumption | intros]).
  all: apply IH; assumption.
Qed.

(** [receive_messages] is the loop with any fuel above the length of the
    channel. *)
Lemma receive_messages_fuel fuel (w : World) :
  (List.length (chan_in (outside w)) <= fuel)%nat ->
  receive_messages w = receive_loop (S fuel) emptyInputs w.
Proof.
  unfold receive_messages, bind, gets.
  induction fuel as [| fuel IH]; intro Hfuel.
  - replace (List.length (chan_in (outside w))) with 0%nat by lia.
    reflexivity.
  - destruct (Nat.eq_dec (List.length (chan_in (outside w))) (S fuel))
      as [-> | Hless]; [reflexivity |].
    rewrite IH by lia. apply receive_loop_fuel. lia.
Qed.

(** *** The backtrack savestate notification *)

Lemma send_alerts_run pending (w : World) :
  send_alerts pending w = Ok tt (sent (alert_items pending) w).
Proof.
  revert w. induction pending as [| alert pending IH]; intro w.
  - destruct w as [s g [t e c i o l]].
    unfold sent, on_outside, set_chan_out. cbn.
    rewrite app_nil_r. reflexivity.
  - cbn [send_alerts]. unfold bind at 1. cbn [sendMessage send modify].
    unfold bind at 1. cbn [sendString send modify].
    rewrite IH. f_equal. unfold sent, on_outside, set_chan_out. cbn.
    rewrite <- !app_assoc. reflexivity.
Qed.

Lemma message_in_alert_items m pending :
  In (IMsg (code m)) (alert_items pending) -> m = MSGB_ALERT_MSG.
Proof.
  induction pending as [| alert pending IH]; cbn.
  - intros [].
  - intros [H | [H | H]].
    + injection H as H. symmetry. apply code_inj. exact H.
    + discriminate H.
    + apply IH. exact H.
Qed.

(** Two message tags on the channel are equal only for one enumerator. *)
Ltac distinct_tags :=
  match goal with
  | H : IMsg (code ?a) = IMsg (code ?b) |- _ =>
      injection H as H; apply code_inj in H; discriminate H
  | H : In (IMsg (code _)) (alert_items _) |- _ =>
      apply message_in_alert_items in H; discriminate H
  | H : _ = IMsg _ |- _ => discriminate H
  | H : False |- _ => destruct H
  end.

(** What [frameBoundary] sends between the timer update and the "frame
    started" marker: the request [MSGB_DO_BACKTRACK_SAVESTATE] is among it
    if and only if [saveBacktrack] is set, the configuration enables
    backtrack savestates and [didASavestate] is set; the marker is not
    among it; [saveBacktrack] is false afterwards. *)
Lemma send_frame_information_run (w : World) :
  exists w1 items,
    send_frame_information w = Ok tt w1
    /\ chan_out (outside w1) = chan_out (outside w) ++ items
    /\ (In (IMsg (code MSGB_DO_BACKTRACK_SAVESTATE)) items <->
        saveBacktrack (globals w) = true
        /\ backtrack_savestate (shared_config (globals w)) = true
        /\ didASavestate (statics w) = true)
    /\ ~ In (IMsg (code MSGB_START_FRAMEBOUNDARY)) items
    /\ saveBacktrack (globals w1) = false.
Proof.
  unfold send_frame_information.
  unfold bind at 1. cbn [gets]. unfold bind at 1. cbn [modify].
  unfold bind at 1. rewrite send_alerts_run.
  unfold send_framecount_time, ask_backtrack_savestate, detTimer_getTicks,
    sendMessage, send, config.
  unfold bind, gets, modify, when, ret. cbv beta iota.
  cbn [sent on_outside on_globals on_statics
       statics globals outside timer chan_out set_chan_out set_alerts
       set_timer game_info shared_config saveBacktrack].
  destruct (getTicks (timer (outside w))) as [ticks tm].
  cbv beta iota.
  cbn [sent on_outside on_globals on_statics
       statics globals outside timer chan_out set_chan_out set_alerts
       set_timer game_info shared_config saveBacktrack].
  destruct (tosend (game_info (globals w))); cbv beta iota.
  all: cbn [sent on_outside on_globals on_statics
       statics globals outside timer chan_out set_chan_out set_alerts
       set_timer game_info shared_config saveBacktrack set_game_info
       didASavestate].
  all: destruct (saveBacktrack (globals w)) eqn:Hrequested; cbv beta iota.
  all: cbn [sent on_outside on_globals on_statics
       statics globals outside timer chan_out set_chan_out set_alerts
       set_timer game_info shared_config saveBacktrack set_game_info
       didASavestate].
  all: destruct (backtrack_savestate (shared_config (globals w))) eqn:Henabled;
    destruct (didASavestate (statics w)) eqn:Hdid;
    cbn [andb]; cbv beta iota.
  all: eexists; eexists.
  all: split; [reflexivity |].
  all: split; [cbn; rewrite <- !app_assoc; reflexivity |].
  all: split; [| split; [| first [reflexivity | exact Hrequested]]].
  all: rewrite ?in_app_iff; cbn [In].
  all: try (intro Hin; decompose [or] Hin; distinct_tags).
  all: split.
  all: try (intro Hin; decompose [or] Hin; try distinct_tags;
            repeat split; reflexivity).
  all: intros (H1 & H2 & H3); try discriminate.
  all: repeat match goal with
              | |- _ \/ _ =>
                  first [left; solve [repeat (first [reflexivity | left])]
                        | right]
              end.
Qed.

(** *** Walking through a computation with a preorder on the worlds *)

Section Steps.

Variable R : World -> World -> Prop.
Hypothesis R_refl : forall w, R w w.
Hypothesis R_trans : forall w1 w2 w3, R w1 w2 -> R w2 w3 -> R w1 w3.

Lemma step_ret {A} (a : A) : respects R (ret a).
Proof. intros w a' w' H. injection H as _ <-. apply R_refl. Qed.

Lemma step_halt {A} (h : Halt) : respects R (halt (A := A) h).
Proof. intros w a w' H. discriminate H. Qed.

Lemma step_gets {A} (f : World -> A) : respects R (gets f).
Proof. intros w a w' H. injection H as _ <-. apply R_refl. Qed.

Lemma step_bind {A B} (m : M A) (k : A -> M B) :
  respects R m -> (forall a, respects R (k a)) -> respects R (bind m k).
Proof.
  intros Hm Hk w b w' H. apply bind_Ok in H as (a & w1 & H1 & H2).
  apply R_trans with w1; [exact (Hm w a w1 H1) | exact (Hk a w1 b w' H2)].
Qed.

Lemma step_when (b : bool) (m : M unit) :
  respects R m -> respects R (when b m).
Proof. intro Hm. destruct b; [exact Hm | apply step_ret]. Qed.

Lemma step_modify (f : World -> World) :
  (forall w, R w (f w)) -> respects R (modify f).
Proof. intros Hf w a w' H. injection H as _ <-. apply Hf. Qed.

Lemma step_receiveItem :
  (forall w rest, R w (on_outside (set_chan_in rest) w)) ->
  respects R receiveItem.
Proof.
  intros Hread w a w' H. unfold receiveItem in H.
  destruct (chan_in (outside w)) as [| i rest]; [discriminate H |].
  injection H as _ <-. apply Hread.
Qed.

Lemma step_detTimer_getTicks :
  (forall w tm, R w (on_outside (set_timer tm) w)) ->
  respects R detTimer_getTicks.
Proof.
  intros Htimer w a w' H. unfold detTimer_getTicks in H.
  destruct (getTicks (timer (outside w))). injection H as _ <-.
  apply Htimer.
Qed.

Lemma step_clock_gettime :
  (forall w n, R w (on_outside (set_clock_reads n) w)) ->
  respects R clock_gettime.
Proof. intros Hclock w a w' H. injection H as _ <-. apply Hclock. Qed.

End Steps.

(** The definitions of the unit that are no loops. *)
Ltac unfold_frame :=
  progress unfold emit, debuglog, send, sendMessage, sendString,
    receiveMessage, receiveString, receiveInt, receiveConfig, receiveInputs,
    config, computeFPS, skipDraw, pushQuitEvent, render_hud, screen_redraw,
    send_framecount_time, do_savestate, do_loadstate, do_stop_encode,
    dump_audio_video, process_inputs_and_events, unless_skipping,
    receive_messages, frame_after_messages.

(** One step through the syntax of a computation: [leaf] proves the
    relation across a change of the world, [loop] deals with the calls of
    the loops. *)
Ltac walk_step refl trans leaf loop :=
  lazymatch goal with
  | |- respects _ (bind _ _) => apply (step_bind _ trans); [| intro]
  | |- respects _ (when _ _) => apply (step_when _ refl)
  | |- respects _ (ret _) => apply (step_ret _ refl)
  | |- respects _ (halt _) => apply step_halt
  | |- respects _ (gets _) => apply (step_gets _ refl)
  | |- respects _ (modify _) => apply step_modify; intro; leaf
  | |- respects _ receiveItem => apply step_receiveItem; intros; leaf
  | |- respects _ detTimer_getTicks =>
      apply step_detTimer_getTicks; intros; leaf
  | |- respects _ clock_gettime => apply step_clock_gettime; intros; leaf
  | |- respects _ (if ?b then _ else _) => destruct b
  | |- respects _ (match ?x with _ => _ end) => destruct x
  | |- respects _ (let _ := _ in _) => cbv zeta
  | |- respects _ _ => first [loop | unfold_frame]
  end.

Ltac walk refl trans leaf loop := repeat walk_step refl trans leaf loop.

(** *** The backtrack savestate notification in the frame boundary *)

Abbreviation unsent := (@nothing_sent Timer Engine AllInputs).

Lemma unsent_refl (w : World) : unsent w w.
Proof. repeat split. Qed.

Lemma unsent_trans (w1 w2 w3 : World) :
  unsent w1 w2 -> unsent w2 w3 -> unsent w1 w3.
Proof.
  intros (Hc12 & Hg12 & Hd12) (Hc23 & Hg23 & Hd23).
  repeat split; congruence.
Qed.

(** [computeFPS] sends nothing and writes its own statics only. *)
Lemma unsent_computeFPS : respects unsent computeFPS.
Proof.
  walk unsent_refl unsent_trans ltac:(repeat split) fail.
Qed.

(** [computeFPS] stops only where the conversion of the frames per second
    to [int] is undefined. *)
Lemma computeFPS_stops (w : World) h :
  computeFPS w = Stop h -> h = UndefinedBehaviour.
Proof.
  unfold computeFPS, config, clock_gettime, detTimer_getTicks.
  cbv beta iota zeta delta [bind gets modify halt].
  repeat match goal with
         | |- context [let '(_, _) := ?x in _] => destruct x
         | |- context [match ?x with Some _ => _ | None => _ end] =>
             destruct x
         | |- context [if ?b then _ else _] => destruct b
         end.
  all: intro H; congruence.
Qed.

(** [frame_until_draw] is the update of the time, then what is sent before
    the marker, then the rest from the marker on. *)
Lemma frame_until_draw_split d (w : World) :
  frame_until_draw d w
  = match
      when d computeFPS
        (on_statics
           (fun s => set_framecount (wrap_ulong (framecount s + 1)) s)
           (on_outside (fun o => set_log (log o ++ [EvSetMainThread]) o) w))
    with
    | Ok _ w0 =>
        (send_frame_information ;; frame_from_marker d)
          (on_outside
             (fun o => set_timer (enterFrameBoundary (timer o)) o) w0)
    | Stop h => Stop h
    end.
Proof. reflexivity. Qed.

(** The run of [frameBoundary] up to the marker: it stops in [computeFPS],
    or it reaches a world in which the information is sent, the request
    flag is clear and the marker is the next thing to go out. *)
Lemma frame_until_marker d (w : World) :
  (d = true /\ frame_until_draw d w = Stop UndefinedBehaviour)
  \/ exists w1 items,
       chan_out (outside w1) = chan_out (outside w) ++ items
       /\ (In (IMsg (code MSGB_DO_BACKTRACK_SAVESTATE)) items <->
           saveBacktrack (globals w) = true
           /\ backtrack_savestate (shared_config (globals w)) = true
           /\ didASavestate (statics w) = true)
       /\ ~ In (IMsg (code MSGB_START_FRAMEBOUNDARY)) items
       /\ saveBacktrack (globals w1) = false
       /\ frame_until_draw d w = frame_from_marker d w1.
Proof.
  rewrite frame_until_draw_split.
  remember (on_statics
              (fun s => set_framecount (wrap_ulong (framecount s + 1)) s)
              (on_outside
                 (fun o => set_log (log o ++ [EvSetMainThread]) o) w))
    as wa eqn:Hwa.
  assert (Hstart : unsent w wa) by (rewrite Hwa; repeat split).
  destruct (when d computeFPS wa) as [[] w0 | h] eqn:Hfps.
  - right.
    assert (Hcomputed : unsent wa w0).
    { destruct d; cbn [when] in Hfps.
      - exact (unsent_computeFPS wa tt w0 Hfps).
      - injection Hfps as <-. apply unsent_refl. }
    pose proof (unsent_trans _ _ _ Hstart Hcomputed) as (Hchan & Hg & Hdid).
    destruct (send_frame_information_run
                (on_outside
                   (fun o => set_timer (enterFrameBoundary (timer o)) o) w0))
      as (w1 & items & Hrun & Hout & Hrequest & Hmarker & Hflag).
    exists w1, items.
    cbn [outside on_outside chan_out set_timer globals statics] in Hout,
      Hrequest.
    rewrite Hchan in Hout. rewrite Hg, Hdid in Hrequest.
    split; [exact Hout |]. split; [exact Hrequest |].
    split; [exact Hmarker |]. split; [exact Hflag |].
    unfold bind at 1. rewrite Hrun. reflexivity.
  - left. destruct d; cbn [when] in Hfps.
    + apply computeFPS_stops in Hfps. subst h. split; reflexivity.
    + discriminate Hfps.
Qed.

Abbreviation after_marker :=
  (@sends_only Timer Engine AllInputs no_request_no_marker).

Lemma after_marker_refl (w : World) : after_marker w w.
Proof.
  exists []. split; [symmetry; apply app_nil_r | constructor].
Qed.

Lemma after_marker_trans (w1 w2 w3 : World) :
  after_marker w1 w2 -> after_marker w2 w3 -> after_marker w1 w3.
Proof.
  intros (l12 & H12 & Hl12) (l23 & H23 & Hl23). exists (l12 ++ l23). split.
  - rewrite H23, H12, app_assoc. reflexivity.
  - apply Forall_app. split; assumption.
Qed.

(** A change of the world that sends nothing, or one item that is neither
    the request nor the marker. *)
Ltac after_marker_leaf :=
  unfold sends_only;
  first
    [ exists []; split; [rewrite app_nil_r; reflexivity | constructor]
    | eexists; split;
      [ reflexivity
      | constructor; [| constructor];
        unfold no_request_no_marker; split;
        first
          [ discriminate
          | let Htag := fresh "Htag" in
            intro Htag; injection Htag as Htag; apply code_inj in Htag;
            discriminate Htag ] ] ].

Lemma after_marker_receive_loop fuel p :
  respects after_marker (receive_loop fuel p).
Proof.
  revert p. induction fuel as [| fuel IH]; intro p; cbn [receive_loop].
  - apply step_halt.
  - apply (step_bind _ after_marker_trans).
    + walk after_marker_refl after_marker_trans after_marker_leaf fail.
    + intro a. destruct (decode a) as [[] |].
      all: walk after_marker_refl after_marker_trans after_marker_leaf
             ltac:(apply IH).
Qed.

Lemma after_marker_receive_messages : respects after_marker receive_messages.
Proof.
  unfold receive_messages. apply (step_bind _ after_marker_trans).
  - apply (step_gets _ after_marker_refl).
  - intro pending. apply after_marker_receive_loop.
Qed.

Lemma after_marker_receive_ramwatches fuel message :
  respects after_marker (receive_ramwatches fuel message).
Proof.
  revert message. induction fuel as [| fuel IH]; intro message;
    cbn [receive_ramwatches].
  - walk after_marker_refl after_marker_trans after_marker_leaf fail.
  - destruct (message =? code MSGN_RAMWATCH).
    + walk after_marker_refl after_marker_trans after_marker_leaf
        ltac:(apply IH).
    + apply (step_ret _ after_marker_refl).
Qed.

Lemma after_marker_frame_after_messages d r :
  respects after_marker (frame_after_messages d r).
Proof.
  walk after_marker_refl after_marker_trans after_marker_leaf fail.
Qed.

(** [frame_from_marker] sends the marker and nothing else. *)
Lemma frame_from_marker_sends d (w w' : World) :
  frame_from_marker d w = Ok tt w' ->
  after_marker (sent [IMsg (code MSGB_START_FRAMEBOUNDARY)] w) w'.
Proof.
  unfold frame_from_marker. intro H.
  apply bind_Ok in H as (a & w1 & Hmarker & H).
  injection Hmarker as _ <-.
  match type of H with
  | ?m ?x = _ => assert (Hrest : respects after_marker m)
  end.
  { walk after_marker_refl after_marker_trans after_marker_leaf
      ltac:(apply after_marker_receive_ramwatches). }
  exact (Hrest _ _ _ H).
Qed.

(** C4.  Every run of [frameBoundary] either stops in [computeFPS], before
    anything is sent, or reaches the point at which the "frame started"
    marker [MSGB_START_FRAMEBOUNDARY] is the next thing to go out; what it
    has sent by then contains the request [MSGB_DO_BACKTRACK_SAVESTATE] if
    and only if on entry [saveBacktrack] is set, the configuration enables
    backtrack savestates and [didASavestate] is set, and [saveBacktrack] is
    false there in all cases.  In a run that returns the marker follows,
    and nothing sent after it, in the exchange with the controller and to
    the end of the call, is the request or the marker again: the request
    is among what the whole call sends under the same three conditions and
    no others. *)
Theorem backtrack_savestate_notification drawFB restore_screen (w : World) :
  ((drawFB = true
    /\ frame_until_draw drawFB w = Stop UndefinedBehaviour
    /\ frameBoundary drawFB restore_screen w = Stop UndefinedBehaviour)
   \/ exists w1 items,
        chan_out (outside w1) = chan_out (outside w) ++ items
        /\ (In (IMsg (code MSGB_DO_BACKTRACK_SAVESTATE)) items <->
            saveBacktrack (globals w) = true
            /\ backtrack_savestate (shared_config (globals w)) = true
            /\ didASavestate (statics w) = true)
        /\ ~ In (IMsg (code MSGB_START_FRAMEBOUNDARY)) items
        /\ saveBacktrack (globals w1) = false
        /\ frame_until_draw drawFB w = frame_from_marker drawFB w1
        /\ frameBoundary drawFB restore_screen w
           = (frame_from_marker drawFB ;; receive_messages ;;
              frame_after_messages drawFB restore_screen) w1)
  /\ (forall w',
        frameBoundary drawFB restore_screen w = Ok tt w' ->
        exists items later,
          chan_out (outside w')
          = chan_out (outside w) ++ items
            ++ IMsg (code MSGB_START_FRAMEBOUNDARY) :: later
          /\ (In (IMsg (code MSGB_DO_BACKTRACK_SAVESTATE)) items <->
              saveBacktrack (globals w) = true
              /\ backtrack_savestate (shared_config (globals w)) = true
              /\ didASavestate (statics w) = true)
          /\ ~ In (IMsg (code MSGB_START_FRAMEBOUNDARY)) items
          /\ ~ In (IMsg (code MSGB_DO_BACKTRACK_SAVESTATE)) later
          /\ ~ In (IMsg (code MSGB_START_FRAMEBOUNDARY)) later
          /\ (In (IMsg (code MSGB_DO_BACKTRACK_SAVESTATE))
                (items ++ IMsg (code MSGB_START_FRAMEBOUNDARY) :: later) <->
              saveBacktrack (globals w) = true
              /\ backtrack_savestate (shared_config (globals w)) = true
              /\ didASavestate (statics w) = true)).
Proof.
  assert (Hcall : frameBoundary drawFB restore_screen w
                  = match frame_until_draw drawFB w with
                    | Ok _ w0 =>
                        (receive_messages ;;
                         frame_after_messages drawFB restore_screen) w0
                    | Stop h => Stop h
                    end) by reflexivity.
  destruct (frame_until_marker drawFB w)
    as [[Hdraw Hstop]
       | (w1 & items & Hout & Hrequest & Hmarker & Hflag & Hrest)].
  - split.
    + left. split; [exact Hdraw |]. split; [exact Hstop |].
      rewrite Hcall, Hstop. reflexivity.
    + intros w' Hrun. rewrite Hcall, Hstop in Hrun. discriminate Hrun.
  - assert (Hwhole : frameBoundary drawFB restore_screen w
                     = (frame_from_marker drawFB ;; receive_messages ;;
                        frame_after_messages drawFB restore_screen) w1).
    { rewrite Hcall, Hrest. reflexivity. }
    split.
    + right. exists w1, items. repeat (split; [assumption |]). exact Hwhole.
    + intros w' Hrun. rewrite Hwhole in Hrun.
      apply bind_Ok in Hrun as ([] & w2 & Hfrom & Hrun).
      apply bind_Ok in Hrun as ([] & w3 & Hmessages & Hafter).
      apply frame_from_marker_sends in Hfrom.
      apply after_marker_receive_messages in Hmessages.
      apply after_marker_frame_after_messages in Hafter.
      destruct (after_marker_trans _ _ _ Hfrom
                  (after_marker_trans _ _ _ Hmessages Hafter))
        as (later & Hlater & Hnone).
      exists items, later.
      cbn [sent outside on_outside chan_out set_chan_out] in Hlater.
      split.
      { rewrite Hlater, Hout, <- !app_assoc. reflexivity. }
      split; [exact Hrequest |]. split; [exact Hmarker |].
      rewrite Forall_forall in Hnone.
      assert (Hlater_request :
                ~ In (IMsg (code MSGB_DO_BACKTRACK_SAVESTATE)) later).
      { intro Hin. destruct (Hnone _ Hin) as [Hno_request _].
        apply Hno_request. reflexivity. }
      split; [exact Hlater_request |]. split.
      * intro Hin. destruct (Hnone _ Hin) as [_ Hno_marker].
        apply Hno_marker. reflexivity.
      * rewrite <- Hrequest, in_app_iff. cbn [In]. split.
        -- intros [Hin | [Htag | Hin]].
           ++ exact Hin.
           ++ injection Htag as Htag. apply code_inj in Htag.
              discriminate Htag.
           ++ destruct (Hlater_request Hin).
        -- intro Hin. left. exact Hin.
Qed.


(** *** Messages with an unknown tag *)

Lemma decode_sound c m : decode c = Some m -> c = code m.
Proof.
  unfold decode. intro H. apply find_some in H as [_ H].
  apply Z.eqb_eq in H. symmetry. exact H.
Qed.

Lemma receiveMessage_run c rest (w : World) :
  chan_in (outside w) = IMsg c :: rest ->
  receiveMessage w = Ok c (read_one rest w).
Proof.
  intro H. unfold receiveMessage, bind, receiveItem. rewrite H. reflexivity.
Qed.

Lemma receive_loop_unrecognized fuel preview_ai c rest (w : World) :
  chan_in (outside w) = IMsg c :: rest ->
  unrecognized c ->
  receive_loop (S fuel) preview_ai w
  = Ok tt (logged "Unknown message received" (read_one rest w)).
Proof.
  intros Hhead Hunknown. cbn [receive_loop]. unfold bind at 1.
  rewrite (receiveMessage_run c rest w Hhead).
  destruct (decode c) as [m |] eqn:Hdecode; [| reflexivity].
  apply decode_sound in Hdecode.
  destruct m; try reflexivity;
    exfalso; eapply Hunknown; try exact Hdecode; cbn; tauto.
Qed.

Lemma code_eqb_neq a b : a <> b -> (code a =? code b) = false.
Proof.
  intro H. apply Z.eqb_neq. intro Hcode. apply H. apply code_inj.
  exact Hcode.
Qed.

Lemma decode_end :
  decode (code MSGN_END_FRAMEBOUNDARY) = Some MSGN_END_FRAMEBOUNDARY.
Proof.
  unfold decode, all_messages. cbn [find].
  rewrite !code_eqb_neq by discriminate. rewrite Z.eqb_refl. reflexivity.
Qed.

Lemma receive_loop_end fuel preview_ai rest (w : World) :
  chan_in (outside w) = IMsg (code MSGN_END_FRAMEBOUNDARY) :: rest ->
  receive_loop (S fuel) preview_ai w = Ok tt (read_one rest w).
Proof.
  intro Hhead. cbn [receive_loop]. unfold bind at 1.
  rewrite (receiveMessage_run _ rest w Hhead), decode_end. reflexivity.
Qed.

(** [log_blind] at the worlds of this section. *)
Abbreviation blind m := (@log_blind Timer Engine AllInputs _ m).

Lemma blind_ret {A} (a : A) : blind (ret a : M A).
Proof. intros w1 w2 H. split; [reflexivity | exact H]. Qed.

Lemma blind_halt {A} (h : Halt) : blind (halt h : M A).
Proof. intros w1 w2 H. reflexivity. Qed.

Lemma blind_bind {A B} (m : M A) (k : A -> M B) :
  blind m -> (forall a, blind (k a)) -> blind (bind m k).
Proof.
  intros Hm Hk w1 w2 H. unfold bind. specialize (Hm w1 w2 H).
  unfold same_outcome in Hm.
  destruct (m w1) as [a x | h1], (m w2) as [b y | h2]; try contradiction.
  - destruct Hm as [<- Hxy]. apply Hk. exact Hxy.
  - exact Hm.
Qed.

Lemma blind_when (b : bool) (m : M unit) :
  blind m -> blind (when b m).
Proof. intro Hm. destruct b; [exact Hm | apply blind_ret]. Qed.

Lemma blind_gets {A} (f : World -> A) :
  (forall w1 w2, same_but_log w1 w2 -> f w1 = f w2) -> blind (gets f).
Proof. intros Hf w1 w2 H. split; [apply Hf; exact H | exact H]. Qed.

Lemma blind_modify (f : World -> World) :
  (forall w1 w2, same_but_log w1 w2 -> same_but_log (f w1) (f w2)) ->
  blind (modify f).
Proof. intros Hf w1 w2 H. split; [reflexivity | apply Hf; exact H]. Qed.

Lemma blind_emit (e : Event) : blind (emit e).
Proof. intros w1 w2 H. split; [reflexivity | exact H]. Qed.

Create HintDb logblind.

#[local] Hint Resolve blind_ret blind_halt blind_when blind_emit : logblind.

Ltac blind_step :=
  lazymatch goal with
  | |- log_blind (bind _ _) => apply blind_bind; [| intro]
  | |- log_blind (when _ _) => apply blind_when
  | |- log_blind (gets _) =>
      apply blind_gets; intros ? ? (? & ? & ? & ? & ? & ? & ?); cbn;
      congruence
  | |- log_blind (modify _) =>
      apply blind_modify; intros ? ? (? & ? & ? & ? & ? & ? & ?);
      unfold same_but_log; cbn; repeat split; congruence
  | |- log_blind (if ?b then _ else _) => destruct b
  | |- log_blind (match ?x with _ => _ end) => destruct x
  | |- log_blind _ => solve [auto with logblind]
  end.

Ltac blind_all := repeat blind_step.

Lemma blind_config : blind config.
Proof. unfold config. blind_all. Qed.

#[local] Hint Resolve blind_config : logblind.

Lemma blind_unless_skipping m : blind m -> blind (unless_skipping m).
Proof. intro Hm. unfold unless_skipping. blind_all. Qed.

Lemma blind_process_inputs_and_events : blind process_inputs_and_events.
Proof. unfold process_inputs_and_events. blind_all. Qed.

Lemma blind_skipDraw f : blind (skipDraw f).
Proof. unfold skipDraw. blind_all. Qed.

#[local] Hint Resolve blind_unless_skipping blind_process_inputs_and_events
  blind_skipDraw : logblind.

Lemma blind_frame_after_messages d r : blind (frame_after_messages d r).
Proof. unfold frame_after_messages. blind_all. Qed.

(** C9.  The receive loop reads a message whose tag is the value of no
    [case] label: it logs "Unknown message received" and returns, in the
    world in which it would have returned had the message been
    [MSGN_END_FRAMEBOUNDARY] but for that log entry; and the rest of
    [frameBoundary] then ends as it would have after
    [MSGN_END_FRAMEBOUNDARY]: in worlds that differ at most in the log.
    The same holds for the whole of [receive_messages] when the message is
    the first it reads. *)
Theorem unknown_message_ends_frame fuel preview_ai c rest (w : World) :
  chan_in (outside w) = IMsg c :: rest ->
  unrecognized c ->
  receive_loop (S fuel) preview_ai w
  = Ok tt (logged "Unknown message received" (read_one rest w))
  /\ receive_loop (S fuel) preview_ai
       (read_one (IMsg (code MSGN_END_FRAMEBOUNDARY) :: rest) w)
     = Ok tt (read_one rest w)
  /\ receive_messages w
     = Ok tt (logged "Unknown message received" (read_one rest w))
  /\ forall drawFB restore_screen,
       same_outcome
         (frame_after_messages drawFB restore_screen
            (logged "Unknown message received" (read_one rest w)))
         (frame_after_messages drawFB restore_screen (read_one rest w)).
Proof.
  intros Hhead Hunknown. split; [| split; [| split]].
  - apply receive_loop_unrecognized with (c := c); assumption.
  - rewrite (receive_loop_end fuel preview_ai rest); reflexivity.
  - unfold receive_messages, bind, gets.
    apply receive_loop_unrecognized with (c := c); assumption.
  - intros d r. apply blind_frame_after_messages.
    repeat split.
Qed.


(** *** The decision to skip a draw *)

Lemma skip_frequency_range f F :
  skip_frequency f = Some F -> 4 <= F < UINT_MODULUS.
Proof.
  unfold skip_frequency.
  assert (Hfloor : forall x, 0 <= x < UINT_MODULUS ->
            4 <= (if x <? 4 then 4 else x) < UINT_MODULUS).
  { intros x Hx. unfold UINT_MODULUS in *.
    destruct (Z.ltb_spec x 4); lia. }
  destruct (float_gt f (float_of_Z 1)).
  - remember (wrap_uint (Z.shiftr _ 23 - 126 - 3)) as count eqn:Hcount.
    remember (wrap_uint (Z.shiftl 1 count)) as raw eqn:Hraw.
    destruct (count <? 32); cbv beta iota; intro H.
    + assert (Hfreq : (if raw <? 4 then 4 else raw) = F) by congruence.
      rewrite <- Hfreq. apply Hfloor. rewrite Hraw.
      apply Z.mod_pos_bound. reflexivity.
    + congruence.
  - cbv beta iota. intro H.
    assert (Hfreq : (if 1 <? 4 then 4 else 1) = F) by congruence.
    rewrite <- Hfreq. apply Hfloor. unfold UINT_MODULUS. lia.
Qed.

(** At or below one frame per second, and for a NaN, the frequency is the
    floor. *)
Lemma skip_frequency_slow f :
  float_gt f (float_of_Z 1) = false -> skip_frequency f = Some 4.
Proof. intro H. unfold skip_frequency. rewrite H. reflexivity. Qed.

(** The exponent field of a positive normal [float]. *)
Lemma exponent_field m e :
  8388608 <= Z.pos m < 16777216 -> 0 <= e + 150 ->
  Z.shiftr (bits_of_float (S754_finite false m e)) 23 = e + 150.
Proof.
  intros Hm He. unfold bits_of_float.
  destruct (Z.leb_spec 8388608 (Z.pos m)) as [_ | Hsub]; [| lia].
  rewrite Z.shiftr_div_pow2 by lia. change (2 ^ 23) with 8388608.
  rewrite Z.add_0_l, Z.div_add_l by lia.
  rewrite Z.div_small by lia. lia.
Qed.

(** Above one frame per second, where the decremented value [m * 2^e] is a
    normal number between 4 and 2^32: the frequency before the floor is
    [2 ^ (e + 21)], the power of two that lies in the interval from an
    eighth (excluded) to a quarter (included) of the decremented value. *)
Lemma skip_frequency_normal f m e :
  float_gt f (float_of_Z 1) = true ->
  float_sub f (float_of_Z 1) = S754_finite false m e ->
  8388608 <= Z.pos m < 16777216 ->
  -21 <= e <= 10 ->
  skip_frequency f = Some (Z.max 4 (2 ^ (e + 21))).
Proof.
  intros Hfast Hsub Hm He. unfold skip_frequency. rewrite Hfast, Hsub.
  rewrite exponent_field by lia.
  replace (e + 150 - 126 - 3) with (e + 21) by lia.
  assert (Hpow : 0 < 2 ^ (e + 21) < UINT_MODULUS).
  { split.
    - apply Z.pow_pos_nonneg; lia.
    - change UINT_MODULUS with (2 ^ 32). apply Z.pow_lt_mono_r; lia. }
  unfold wrap_uint.
  rewrite (Z.mod_small (e + 21)) by (unfold UINT_MODULUS; lia).
  destruct (Z.ltb_spec (e + 21) 32) as [_ | Hbig]; [| lia].
  rewrite Z.shiftl_1_l, Z.mod_small by lia.
  f_equal. destruct (Z.ltb_spec (2 ^ (e + 21)) 4); lia.
Qed.

Lemma decremented_value m e :
  8388608 <= Z.pos m < 16777216 ->
  -21 <= e <= 10 ->
  (inject_Z (4 * 2 ^ (e + 21)) <= Q_of_float (S754_finite false m e))%Q
  /\ (Q_of_float (S754_finite false m e) < inject_Z (8 * 2 ^ (e + 21)))%Q.
Proof.
  intros Hm He. unfold Q_of_float.
  destruct (Z.leb_spec 0 e) as [Hpos | Hneg].
  - rewrite <- Zle_Qle, <- Zlt_Qlt.
    replace (e + 21) with (21 + e) by lia.
    rewrite Z.pow_add_r by lia. change (2 ^ 21) with 2097152.
    assert (0 < 2 ^ e) by (apply Z.pow_pos_nonneg; lia). nia.
  - unfold Qle, Qlt. cbn [Qnum Qden inject_Z].
    assert (Hden : 0 < 2 ^ (- e)) by (apply Z.pow_pos_nonneg; lia).
    rewrite Z2Pos.id by exact Hden.
    assert (Hsplit : 2 ^ (e + 21) * 2 ^ (- e) = 2097152).
    { rewrite <- Z.pow_add_r by lia. replace (e + 21 + - e) with 21 by lia.
      reflexivity. }
    nia.
Qed.


(** For a whole number [n] of frames per second between [4 * 2^k]
    (excluded) and [8 * 2^k] (included), the frequency of the
    specification is [2^k], raised to the floor. *)
Lemma spec_skip_frequency_whole (q : Q) n k :
  (q == inject_Z n)%Q -> 0 <= k -> 4 * 2 ^ k < n <= 8 * 2 ^ k ->
  spec_skip_frequency q = Z.max 4 (2 ^ k).
Proof.
  intros Hq Hk Hn. unfold spec_skip_frequency. f_equal. f_equal.
  assert (Hceiling : Qceiling (q / 8) = - ((- n) / 8)).
  { rewrite Hq. unfold Qceiling, Qfloor, Qdiv, Qmult, Qinv, Qopp, inject_Z.
    cbn. rewrite Z.mul_1_r. reflexivity. }
  rewrite Hceiling.
  assert (Hpow : 0 < 2 ^ k) by (apply Z.pow_pos_nonneg; lia).
  assert (Hlow : 8 * (- ((- n) / 8)) >= n).
  { pose proof (Z.mod_pos_bound (- n) 8 ltac:(lia)).
    pose proof (Z.div_mod (- n) 8 ltac:(lia)). lia. }
  assert (Hhigh : 8 * (- ((- n) / 8)) < n + 8).
  { pose proof (Z.mod_pos_bound (- n) 8 ltac:(lia)).
    pose proof (Z.div_mod (- n) 8 ltac:(lia)). lia. }
  remember (- ((- n) / 8)) as c eqn:Hc. clear Hc Hceiling.
  destruct (Z.eq_dec k 0) as [-> | Hpositive].
  - change (2 ^ 0) with 1 in *. assert (c = 1) by lia. subst c. reflexivity.
  - apply Z.log2_up_unique; [lia |].
    assert (Hhalf : 2 ^ k = 2 * 2 ^ Z.pred k).
    { rewrite <- Z.pow_succ_r by lia. f_equal. lia. }
    lia.
Qed.

(** Up to 32 frames per second the frequency of the specification is the
    floor. *)
Lemma spec_skip_frequency_floor (q : Q) :
  (q <= inject_Z 32)%Q -> spec_skip_frequency q = 4.
Proof.
  intro Hq. unfold spec_skip_frequency.
  assert (Hceiling : Qceiling (q / 8) <= 4).
  { change 4 with (Qceiling (inject_Z 32 / 8)).
    apply Qceiling_resp_le. unfold Qdiv.
    apply Qmult_le_compat_r; [exact Hq | discriminate]. }
  assert (Hlog : Z.log2_up (Qceiling (q / 8)) <= 2).
  { change 2 with (Z.log2_up 4). apply Z.log2_up_le_mono. exact Hceiling. }
  assert (Hnonneg := Z.log2_up_nonneg (Qceiling (q / 8))).
  assert (Hpow : 2 ^ Z.log2_up (Qceiling (q / 8)) <= 2 ^ 2).
  { apply Z.pow_le_mono_r; lia. }
  change (2 ^ 2) with 4 in Hpow. lia.
Qed.

(** Above one frame per second, where the decremented value [m * 2^e] is
    below 4: the shift count [(skip_freq >> 23) - 126 - 3] is negative,
    which makes at least 2^32 - 129 of it as an [unsigned int], and the
    shift is undefined. *)
Lemma skip_frequency_below_five f m e :
  float_gt f (float_of_Z 1) = true ->
  float_sub f (float_of_Z 1) = S754_finite false m e ->
  Z.pos m < 16777216 ->
  -149 <= e < -21 ->
  skip_frequency f = None.
Proof.
  intros Hfast Hsub Hm He. unfold skip_frequency. rewrite Hfast, Hsub.
  assert (Hfield : 0 <= Z.shiftr (bits_of_float (S754_finite false m e)) 23
                   < 129).
  { destruct (Z.leb_spec 8388608 (Z.pos m)) as [Hnormal | Hsubnormal].
    - rewrite exponent_field by lia. lia.
    - unfold bits_of_float.
      destruct (Z.leb_spec 8388608 (Z.pos m)) as [Habsurd | _]; [lia |].
      rewrite Z.add_0_l, Z.shiftr_div_pow2 by lia.
      change (2 ^ 23) with 8388608. rewrite Z.div_small by lia. lia. }
  remember (Z.shiftr (bits_of_float (S754_finite false m e)) 23) as field
    eqn:Hdef.
  clear Hdef.
  assert (Hcount : wrap_uint (field - 126 - 3)
                   = field - 126 - 3 + UINT_MODULUS).
  { unfold wrap_uint. symmetry.
    apply Z.mod_unique with (q := -1); unfold UINT_MODULUS; lia. }
  rewrite Hcount.
  destruct (Z.ltb_spec (field - 126 - 3 + UINT_MODULUS) 32) as [Hlow | _];
    [unfold UINT_MODULUS in Hlow; lia | reflexivity].
Qed.

(** Where the shift is undefined, a call that gets as far as the frequency
    has no decision. *)
Lemma skipDraw_undefined f (w : World) :
  counts_frames w ->
  skip_frequency f = None ->
  skipDraw f w = Stop UndefinedBehaviour.
Proof.
  intros (Hfast & Hrun & Hdump & Hmode) Hfreq.
  unfold skipDraw, config.
  cbv beta iota delta [bind gets]. rewrite Hfast, Hrun, Hdump, Hmode, Hfreq.
  reflexivity.
Qed.

Lemma skipDraw_counts f F (w : World) :
  counts_frames w ->
  skip_frequency f = Some F ->
  skipDraw f w
  = if wrap_uint (skip_counter (statics w) + 1) >=? F
    then Ok false (on_statics (set_skip_counter 0) w)
    else Ok true
           (on_statics
              (set_skip_counter (wrap_uint (skip_counter (statics w) + 1)))
              w).
Proof.
  intros (Hfast & Hrun & Hdump & Hmode) Hfreq.
  unfold skipDraw, config.
  cbv beta iota delta [bind gets]. rewrite Hfast, Hrun, Hdump, Hmode, Hfreq.
  cbv beta iota delta [negb].
  destruct (wrap_uint (skip_counter (statics w) + 1) >=? F); reflexivity.
Qed.

Lemma skip_decisions_S n f :
  skip_decisions (S n) f
  = (skip <- skipDraw f ;; rest <- skip_decisions n f ;; ret (skip :: rest)).
Proof. reflexivity. Qed.

Lemma skip_decisions_to_draw f F k : forall (w : World),
  counts_frames w ->
  skip_frequency f = Some F ->
  0 <= skip_counter (statics w) ->
  skip_counter (statics w) + 1 + Z.of_nat k = F ->
  skip_decisions (S k) f w
  = Ok (repeat true k ++ [false]) (on_statics (set_skip_counter 0) w).
Proof.
  induction k as [| k IH]; intros w Hcfg Hfreq Hcounter Hleft.
  - cbn [skip_decisions]. unfold bind at 1.
    rewrite (skipDraw_counts f F w Hcfg Hfreq).
    pose proof (skip_frequency_range f F Hfreq) as HF.
    unfold wrap_uint. rewrite Z.mod_small by lia.
    destruct (Z.geb_spec (skip_counter (statics w) + 1) F); [| lia].
    reflexivity.
  - rewrite skip_decisions_S. unfold bind at 1.
    rewrite (skipDraw_counts f F w Hcfg Hfreq).
    pose proof (skip_frequency_range f F Hfreq) as HF.
    unfold wrap_uint. rewrite Z.mod_small by lia.
    destruct (Z.geb_spec (skip_counter (statics w) + 1) F); [lia |].
    unfold bind at 1.
    rewrite (IH (on_statics
                   (set_skip_counter (skip_counter (statics w) + 1)) w)).
    + reflexivity.
    + exact Hcfg.
    + exact Hfreq.
    + cbn. lia.
    + cbn. lia.
Qed.


(** What holds of [skipDraw] on the code, for every call in which the
    frequency is defined.  [skipDraw] does not skip when fast-forward is
    off, when the game does not run, or when audio and video are dumped;
    past these tests it skips when the fast-forward mode skips all
    rendering.  Otherwise it counts calls against a frequency that is never
    below 4: after a drawn frame the next [F - 1] calls skip and the call
    after them draws.  The frequency is 4 up to one frame per second.
    Above that, where the decremented value [fps - 1] is a normal number
    [m * 2^e] between 4 and 2^32, it is the power of two that lies between
    an eighth (excluded) and a quarter (included) of [fps - 1], raised to
    4; this is [fps / 8] rounded up to the next power of two, as the
    specification words it, when [fps] is a whole number and the decrement
    is exact. *)
Lemma skipDraw_decision (f : float) (w : World) :
  (fastforward (shared_config (globals w)) = false
   \/ running (shared_config (globals w)) = false
   \/ av_dumping (shared_config (globals w)) = true ->
   skipDraw f w = Ok false w)
  /\ (fastforward (shared_config (globals w)) = true ->
      running (shared_config (globals w)) = true ->
      av_dumping (shared_config (globals w)) = false ->
      masked (fastforward_mode (shared_config (globals w))) FF_RENDERING
      = true ->
      skipDraw f w = Ok true w)
  /\ (counts_frames w ->
      (float_gt f (float_of_Z 1) = false -> skip_frequency f = Some 4)
      /\ (forall m e,
            float_gt f (float_of_Z 1) = true ->
            float_sub f (float_of_Z 1) = S754_finite false m e ->
            8388608 <= Z.pos m < 16777216 ->
            -21 <= e <= 10 ->
            skip_frequency f = Some (Z.max 4 (2 ^ (e + 21)))
            /\ (inject_Z (4 * 2 ^ (e + 21))
                <= Q_of_float (float_sub f (float_of_Z 1)))%Q
            /\ (Q_of_float (float_sub f (float_of_Z 1))
                < inject_Z (8 * 2 ^ (e + 21)))%Q
            /\ (forall n,
                  (Q_of_float f == inject_Z n)%Q ->
                  (Q_of_float (float_sub f (float_of_Z 1))
                   == inject_Z (n - 1))%Q ->
                  skip_frequency f
                  = Some (spec_skip_frequency (Q_of_float f))))
      /\ (forall F,
            skip_frequency f = Some F ->
            4 <= F
            /\ (skip_counter (statics w) = 0 ->
                skip_decisions (Z.to_nat F) f w
                = Ok (repeat true (Z.to_nat (F - 1)) ++ [false])
                     (on_statics (set_skip_counter 0) w)))).
Proof.
  split; [| split].
  - intro Hnever. unfold skipDraw, config.
    cbv beta iota delta [bind gets].
    destruct (fastforward (shared_config (globals w))); [| reflexivity].
    destruct (running (shared_config (globals w))); [| reflexivity].
    destruct (av_dumping (shared_config (globals w))); [reflexivity |].
    destruct Hnever as [H | [H | H]]; discriminate H.
  - intros Hfast Hrun Hdump Hmode. unfold skipDraw, config.
    cbv beta iota delta [bind gets].
    rewrite Hfast, Hrun, Hdump, Hmode. reflexivity.
  - intro Hcfg. split; [| split].
    + apply skip_frequency_slow.
    + intros m e Hfast Hsub Hm He.
      pose proof (skip_frequency_normal f m e Hfast Hsub Hm He) as Hfreq.
      pose proof (decremented_value m e Hm He) as [Hlow Hhigh].
      rewrite <- Hsub in Hlow, Hhigh.
      split; [exact Hfreq |]. split; [exact Hlow |]. split; [exact Hhigh |].
      intros n Hwhole Hexact. rewrite Hfreq. f_equal. symmetry.
      rewrite Hexact in Hlow, Hhigh.
      rewrite <- Zle_Qle in Hlow. rewrite <- Zlt_Qlt in Hhigh.
      apply (spec_skip_frequency_whole _ n (e + 21) Hwhole); lia.
    + intros F Hfreq.
      pose proof (skip_frequency_range f F Hfreq) as HF.
      split; [lia |]. intro Hzero.
      replace (Z.to_nat F) with (S (Z.to_nat (F - 1))) by lia.
      apply (skip_decisions_to_draw f F); try assumption.
      * lia.
      * rewrite Hzero. lia.
Qed.

End FrameProperties.

(** *** The frame boundary on the reference worlds *)

Section FrameWitnesses.

Import Frame Reference.

(** The theorem of C3 at frame 41, over three frames from there, and at
    the call that follows two frames from the initial value 0. *)
Lemma framecount_steps_by_one_witness :
  (exists w',
     frameBoundary true false (fast 41 fps_60 shortest_answer) = Ok tt w'
     /\ framecount (statics w') = 42)
  /\ (exists w',
        frames [(true, false); (false, false); (true, true)]
          (fast 41 fps_60
             (shortest_answer ++ shortest_answer ++ shortest_answer))
        = Ok tt w'
        /\ framecount (statics w') = 44)
  /\ (exists w1 w2,
        frames [(true, false); (false, true)]
          (fast 0 fps_60
             (shortest_answer ++ shortest_answer ++ shortest_answer))
        = Ok tt w1
        /\ frameBoundary false false w1 = Ok tt w2
        /\ framecount (statics w1) = 2
        /\ framecount (statics w2) = 3).
Proof.
  destruct (@framecount_steps_by_one Z Z Z frame_deps)
    as (Hone & Hmany & Hreached).
  split; [| split].
  - destruct (frameBoundary true false (fast 41 fps_60 shortest_answer))
      as [[] w' | h] eqn:Hrun.
    + exists w'. split; [reflexivity |].
      destruct (Hone true false _ w' Hrun) as [_ Hexact].
      rewrite Hexact; [reflexivity |]. cbn. unfold ULONG_MODULUS. lia.
    + vm_compute in Hrun. discriminate Hrun.
  - destruct (frames [(true, false); (false, false); (true, true)]
                (fast 41 fps_60
                   (shortest_answer ++ shortest_answer ++ shortest_answer)))
      as [[] w' | h] eqn:Hrun.
    + exists w'. split; [reflexivity |].
      assert (Hrange : 0 <= framecount
                              (statics
                                 (fast 41 fps_60
                                    (shortest_answer ++ shortest_answer
                                     ++ shortest_answer)))
                       < ULONG_MODULUS).
      { cbn. unfold ULONG_MODULUS. lia. }
      destruct (Hmany _ _ w' Hrange Hrun) as [_ Hexact].
      rewrite Hexact; [reflexivity |]. cbn. unfold ULONG_MODULUS. lia.
    + vm_compute in Hrun. discriminate Hrun.
  - destruct (frames [(true, false); (false, true)]
                (fast 0 fps_60
                   (shortest_answer ++ shortest_answer ++ shortest_answer)))
      as [[] w1 | h] eqn:Hcalls.
    + destruct (frameBoundary false false w1) as [[] w2 | h] eqn:Hcall.
      * exists w1, w2. split; [reflexivity |]. split; [exact Hcall |].
        assert (Hstart : framecount
                           (statics
                              (fast 0 fps_60
                                 (shortest_answer ++ shortest_answer
                                  ++ shortest_answer))) = 0)
          by reflexivity.
        assert (Hbelow : Z.of_nat
                           (List.length [(true, false); (false, true)])
                         < ULONG_MODULUS - 1).
        { cbn. unfold ULONG_MODULUS. lia. }
        destruct (Hreached _ false false _ w1 w2 Hstart Hbelow Hcalls Hcall)
          as [Hcount Hnext].
        split; [exact Hcount |]. rewrite Hnext, Hcount. reflexivity.
      * vm_compute in Hcalls. injection Hcalls as <-.
        vm_compute in Hcall. discriminate Hcall.
    + vm_compute in Hcalls. discriminate Hcalls.
Defined.

(** The theorem of C4 where a request is pending, a savestate was made and
    the configuration enables backtrack savestates: the frame boundary
    returns, the request went out before the marker and not after it. *)
Lemma backtrack_savestate_notification_witness :
  exists w' before later,
    frameBoundary true false backtrack_enabled = Ok tt w'
    /\ chan_out (outside w')
       = before ++ IMsg (code MSGB_START_FRAMEBOUNDARY) :: later
    /\ In (IMsg (code MSGB_DO_BACKTRACK_SAVESTATE)) before
    /\ ~ In (IMsg (code MSGB_START_FRAMEBOUNDARY)) before
    /\ ~ In (IMsg (code MSGB_DO_BACKTRACK_SAVESTATE)) later.
Proof.
  destruct (backtrack_savestate_notification true false backtrack_enabled)
    as [_ Hreturns].
  destruct (frameBoundary true false backtrack_enabled)
    as [[] w' | h] eqn:Hrun.
  - destruct (Hreturns w' eq_refl)
      as (items & later & Hout & Hrequest & Hmarker & Hlater & _ & _).
    exists w', items, later. split; [reflexivity |].
    split; [exact Hout |]. split; [| split; [exact Hmarker | exact Hlater]].
    apply Hrequest. repeat split.
  - vm_compute in Hrun. discriminate Hrun.
Defined.

(** C4 as the specification states it fails here: [saveBacktrack] and
    [didASavestate] are set and the whole frame boundary sends no
    [MSGB_DO_BACKTRACK_SAVESTATE]. *)
Lemma backtrack_request_not_sent_when_disabled :
  saveBacktrack (globals backtrack_disabled) = true
  /\ didASavestate (statics backtrack_disabled) = true
  /\ exists w',
       frameBoundary true false backtrack_disabled = Ok tt w'
       /\ ~ In (IMsg (code MSGB_DO_BACKTRACK_SAVESTATE))
            (chan_out (outside w')).
Proof.
  split; [reflexivity |]. split; [reflexivity |].
  eexists. split.
  - vm_compute. reflexivity.
  - cbn. intro Hin.
    repeat (destruct Hin as [Hin | Hin]; [discriminate Hin |]).
    exact Hin.
Qed.

(** The floats of the examples are values of the type. *)
Lemma reference_floats_valid :
  valid_binary prec32 emax32 fps_64_5 = true
  /\ valid_binary prec32 emax32 fps_60 = true
  /\ valid_binary prec32 emax32 fps_3 = true
  /\ fps_64_5 = float_div (float_of_Z 129) (float_of_Z 2).
Proof. repeat split. Qed.

(** C5.  With fast-forward on, the game running, no dump and a
    fast-forward mode that does not skip all rendering, [skipDraw] misses
    the frequency of the claim at two inputs.  At 3 frames per second the
    frequency of the claim is the floor 4; the code computes the shift
    count [(skip_freq >> 23) - 126 - 3] from the decremented value 2, which
    is -1 and 4294967295 as an [unsigned int]: the shift
    [1U << 4294967295] is undefined, [skipDraw] has no decision and neither
    it nor [frameBoundary] returns in the model.  The same is so for every
    [float] above 1 whose decremented value [m * 2^e] is below 4.  At
    64.5 frames per second an eighth of the value is 8.0625, which
    rounds up to the power of two 16; the code rounds the decremented value
    63.5 and draws one frame in 8. *)
Theorem skipDraw_misses_frequency :
  (counts_frames (fast 0 fps_3 [])
   /\ float_gt fps_3 (float_of_Z 1) = true
   /\ spec_skip_frequency (Q_of_float fps_3) = 4
   /\ float_sub fps_3 (float_of_Z 1) = float_of_Z 2
   /\ wrap_uint (Z.shiftr (bits_of_float (float_of_Z 2)) 23 - 126 - 3)
      = 4294967295
   /\ skip_frequency fps_3 = None
   /\ skipDraw fps_3 (fast 0 fps_3 []) = Stop UndefinedBehaviour
   /\ frameBoundary true false (fast 0 fps_3 shortest_answer)
      = Stop UndefinedBehaviour)
  /\ (forall f m e,
        float_gt f (float_of_Z 1) = true ->
        float_sub f (float_of_Z 1) = S754_finite false m e ->
        Z.pos m < 16777216 ->
        -149 <= e < -21 ->
        skip_frequency f = None
        /\ skipDraw f (fast 0 f []) = Stop UndefinedBehaviour)
  /\ (counts_frames (fast 0 fps_64_5 [])
      /\ spec_skip_frequency (Q_of_float fps_64_5) = 16
      /\ skip_frequency fps_64_5 = Some 8
      /\ exists w',
           skip_decisions 8 fps_64_5 (fast 0 fps_64_5 [])
           = Ok [true; true; true; true; true; true; true; false] w').
Proof.
  assert (Hcfg : forall f, counts_frames (fast 0 f [])).
  { intro f. repeat split. }
  assert (Hfast : float_gt fps_3 (float_of_Z 1) = true) by reflexivity.
  assert (Hsub : float_sub fps_3 (float_of_Z 1)
                 = S754_finite false 8388608 (-22)) by reflexivity.
  assert (Hundefined : skip_frequency fps_3 = None).
  { apply (skip_frequency_below_five fps_3 8388608 (-22) Hfast Hsub); lia. }
  split; [| split].
  - split; [apply Hcfg |]. split; [exact Hfast |].
    split; [apply spec_skip_frequency_floor; discriminate |].
    split; [reflexivity |]. split; [reflexivity |].
    split; [exact Hundefined |].
    split; [apply skipDraw_undefined; [apply Hcfg | exact Hundefined] |].
    vm_compute. reflexivity.
  - intros f m e Hgt Hdecremented Hm He.
    assert (Hnone : skip_frequency f = None).
    { apply (skip_frequency_below_five f m e); assumption. }
    split; [exact Hnone |].
    apply skipDraw_undefined; [apply Hcfg | exact Hnone].
  - split; [apply Hcfg |]. split; [reflexivity |]. split; [reflexivity |].
    eexists. vm_compute. reflexivity.
Qed.

(** [skipDraw_decision] at 60 frames per second: 59 is [15466496 * 2^-18],
    the frequency is 8, which is 60 / 8 rounded up to a power of two. *)
Lemma skipDraw_decision_witness :
  skip_frequency fps_60 = Some 8
  /\ skip_frequency fps_60 = Some (spec_skip_frequency (Q_of_float fps_60))
  /\ skip_decisions 8 fps_60 (fast 0 fps_60 [])
     = Ok [true; true; true; true; true; true; true; false]
          (on_statics (set_skip_counter 0) (fast 0 fps_60 [])).
Proof.
  destruct (skipDraw_decision fps_60 (fast 0 fps_60 []))
    as (_ & _ & Hcounting).
  assert (Hcfg : counts_frames (fast 0 fps_60 [])).
  { repeat split. }
  destruct (Hcounting Hcfg) as (_ & Hnormal & Hperiod).
  assert (Hfast : float_gt fps_60 (float_of_Z 1) = true) by reflexivity.
  assert (Hsub : float_sub fps_60 (float_of_Z 1)
                 = S754_finite false 15466496 (-18)) by reflexivity.
  assert (Hm : 8388608 <= Z.pos 15466496 < 16777216) by lia.
  assert (He : -21 <= -18 <= 10) by lia.
  destruct (Hnormal 15466496%positive (-18) Hfast Hsub Hm He)
    as (Hfreq & _ & _ & Hwhole).
  split; [exact Hfreq |]. split.
  - apply (Hwhole 60); reflexivity.
  - destruct (Hperiod 8 Hfreq) as [_ Hdecisions].
    apply Hdecisions. reflexivity.
Defined.

(** The theorem of C9 at the tag 99. *)
Lemma unknown_message_ends_frame_witness :
  receive_messages (fast 7 fps_60 [IMsg 99; IMsg 1])
  = Ok tt
      (logged "Unknown message received"
         (read_one [IMsg 1] (fast 7 fps_60 [IMsg 99; IMsg 1]))).
Proof.
  assert (Hunknown : @unrecognized Z Z Z frame_deps 99).
  { intros m Hin. cbn in Hin.
    repeat (destruct Hin as [<- | Hin]; [discriminate |]).
    destruct Hin. }
  assert (Hhead : chan_in (outside (fast 7 fps_60 [IMsg 99; IMsg 1]))
                  = IMsg 99 :: [IMsg 1]) by reflexivity.
  destruct (unknown_message_ends_frame 0%nat 0 99 [IMsg 1]
              (fast 7 fps_60 [IMsg 99; IMsg 1]) Hhead Hunknown)
    as (_ & _ & Hmessages & _).
  exact Hmessages.
Defined.

End FrameWitnesses.
